(** * lesson_4_VGG: a VGG-style CIFAR-10 classifier written against Keras

    The notebook [lesson_4_VGG.ipynb] is a linear script of calls into
    NumPy, Keras, pyplot and IPython.  This development embeds the script
    cell by cell in a small state-and-exception monad whose state is the
    trace of framework calls and the mutable state of the one Keras model
    object.  The parts of the framework whose results the script inspects
    (array arithmetic, [to_categorical], [argmax], the shapes and parameter
    counts of layers, the order of the numbers [evaluate] returns) are
    modelled as executable functions, together with what the framework
    refuses: an array that is empty or not of the shape the model was
    declared for, an image pyplot cannot draw, an index past the end.  The
    numbers a trained network produces are left abstract as section
    variables. *)

From Stdlib Require Import ZArith NArith QArith Lia.
From stdpp Require Import base option list strings.

Open Scope string_scope.
Open Scope N_scope.
Open Scope list_scope.

(** ** Python values and exceptions *)

Inductive exn :=
| ValueError | IndexError | KeyError | RuntimeError | TypeError
| InvalidArgumentError.

Inductive result (A : Type) :=
| Ok (a : A)
| Raise (e : exn).
Arguments Ok {A} a.
Arguments Raise {A} e.

Definition result_bind {A B} (r : result A) (f : A -> result B) : result B :=
  match r with Ok a => f a | Raise e => Raise e end.

Fixpoint result_mapM {A B} (f : A -> result B) (l : list A) : result (list B) :=
  match l with
  | [] => Ok []
  | a :: l' =>
      result_bind (f a) (fun b =>
      result_bind (result_mapM f l') (fun bs => Ok (b :: bs)))
  end.

(** A floating-point number: a finite value (kept as an exact rational, the
    rounding of the quotient is not modelled), or one of the two
    non-finite results a division of non-negative numbers can give. *)
Inductive float :=
| Fin (q : Q)
| PInf
| NaN.

Definition isnan (x : float) : bool :=
  match x with NaN => true | _ => false end.

Definition isfinite (x : float) : bool :=
  match x with Fin _ => true | _ => false end.

(** IEEE [<=]: false as soon as one side is NaN. *)
Definition fle (a b : float) : bool :=
  match a, b with
  | NaN, _ | _, NaN => false
  | _, PInf => true
  | PInf, Fin _ => false
  | Fin x, Fin y => Qle_bool x y
  end.

(** [x] is a finite number of the closed interval [0,1]. *)
Definition in_unit_interval (x : float) : Prop :=
  match x with Fin q => (0 <= q /\ q <= 1)%Q | _ => False end.

(** Arrays.  [cifar10.load_data] returns uint8 arrays: images of shape
    (n, H, W, C) and labels of shape (n, 1), kept here as the list of the
    n labels. *)
Definition u8image := list (list (list N)).
Definition u8images := list u8image.
Definition fimage := list (list (list float)).
Definition fimages := list fimage.
Definition fmatrix := list (list float).

(** An array of any rank, as pyplot is given one: its shape and its
    elements in row-major order. *)
Record ndarray := {
  nd_shape : list N;
  nd_data : list N
}.

Record dataset := {
  ds_x_train : u8images;
  ds_y_train : list N;
  ds_x_test : u8images;
  ds_y_test : list N
}.

(** ** NumPy *)
Module np.

Definition ravel (a : u8images) : list N := concat (concat (concat a)).

(** [a.max()]: the largest element; a zero-size array has none. *)
Definition max (a : u8images) : result N :=
  match ravel a with
  | [] => Raise ValueError
  | p :: ps => Ok (fold_left N.max ps p)
  end.

(** One element of [a / m] for unsigned integers: true division into a
    float.  A zero divisor does not raise; it takes the floating-point
    error branch and yields NaN (0/0) or inf (x/0). *)
Definition true_divide (x m : N) : float :=
  match m with
  | N0 => if x =? 0 then NaN else PInf
  | Npos d => Fin (Z.of_N x # d)
  end.

Definition divide (a : u8images) (m : N) : fimages :=
  map (map (map (map (fun x => true_divide x m)))) a.

(** [a.shape] of an (n, H, W, C) array, read off the first image. *)
Definition shape (a : u8images) : list N :=
  let img := hd [] a in
  let row := hd [] img in
  let px := hd [] row in
  [N.of_nat (length a); N.of_nat (length img);
   N.of_nat (length row); N.of_nat (length px)].

(** Modelled from the spec: [ndarray.argmax] is library code the
    notebook calls and does not contain; it is taken as documented, the
    index of the first occurrence of the maximum.  [argmax_scan] is its
    scan over a float vector: [mp] is the running maximum, [best] its
    index, [i] the index of the head of [l].  A later element replaces
    the maximum only when it is not [<=] it, so the first occurrence wins
    and a NaN, once met, stays. *)
Fixpoint argmax_scan (mp : float) (best i : nat) (l : list float) : nat :=
  match l with
  | [] => best
  | x :: l' =>
      if isnan mp then best
      else if fle x mp then argmax_scan mp best (S i) l'
      else argmax_scan x i (S i) l'
  end.

Definition argmax (v : list float) : result nat :=
  match v with
  | [] => Raise ValueError
  | x :: l => Ok (argmax_scan x 0 1 l)
  end.

(** [a.argmax()] of a matrix works on the flattened array;
    [a.argmax(axis=1)] works row by row. *)
Definition argmax_flat (a : fmatrix) : result nat := argmax (concat a).
Definition argmax_axis1 (a : fmatrix) : result (list nat) :=
  result_mapM argmax a.

(** An image of [h] rows, [w] columns and [c] channels, for [s] the
    shape (h, w, c). *)
Definition has_shape {A} (s : list N) (img : list (list (list A))) : bool :=
  match s with
  | [h; w; c] =>
      (N.of_nat (length img) =? h) &&
      forallb (fun row =>
                 (N.of_nat (length row) =? w) &&
                 forallb (fun px => N.of_nat (length px) =? c) row) img
  | _ => false
  end.

Definition expand_dims0 {A} (a : A) : list A := [a].

(** [a.squeeze()]: the same elements, without the axes of length one. *)
Definition squeeze (a : u8images) : ndarray :=
  {| nd_shape := filter (fun n => n <> 1) (shape a);
     nd_data := ravel a |}.

End np.

(** ** Keras: layers, symbolic tensors and models *)
Module keras.

Definition shape := list N.

Inductive activation := relu | softmax.
Inductive padding := same | valid.

(** The layer constructors the notebook uses, with the arguments it
    passes; every other argument keeps the framework's default (stride 1
    and a bias for [Conv2D], stride = pool size and 'valid' padding for
    [MaxPooling2D], a bias for [Dense]). *)
Inductive layer :=
| Conv2D (filters : N) (kernel_size : N * N) (act : activation) (pad : padding)
| MaxPooling2D (pool_size : N * N)
| Flatten
| Dense (units : N) (act : activation)
| Dropout (rate : Q).

Definition class_name (l : layer) : string :=
  match l with
  | Conv2D _ _ _ _ => "Conv2D"
  | MaxPooling2D _ => "MaxPooling2D"
  | Flatten => "Flatten"
  | Dense _ _ => "Dense"
  | Dropout _ => "Dropout"
  end.

(** Length of one spatial axis after a window of size [k] moved by
    [stride]. *)
Definition conv_axis (pad : padding) (n k stride : N) : result N :=
  match pad with
  | same => Ok ((n + stride - 1) / stride)
  | valid => if n <? k then Raise ValueError else Ok ((n - k) / stride + 1)
  end.

(** Shape inference, without the batch axis.  A layer called on a tensor
    it cannot take raises. *)
Definition compute_output_shape (l : layer) (s : shape) : result shape :=
  match l, s with
  | Conv2D f (kh, kw) _ pad, [h; w; _] =>
      result_bind (conv_axis pad h kh 1) (fun h' =>
      result_bind (conv_axis pad w kw 1) (fun w' => Ok [h'; w'; f]))
  | MaxPooling2D (ph, pw), [h; w; c] =>
      result_bind (conv_axis valid h ph ph) (fun h' =>
      result_bind (conv_axis valid w pw pw) (fun w' => Ok [h'; w'; c]))
  | Flatten, _ => Ok [foldr N.mul 1 s]
  | Dense u _, _ :: _ => Ok (removelast s ++ [u])
  | Dropout _, _ => Ok s
  | _, _ => Raise ValueError
  end.

(** Trainable weights of a layer built on an input of shape [s]: a
    kernel and a bias per filter or unit. *)
Definition trainable_params (l : layer) (s : shape) : N :=
  let c_in := List.last s 0 in
  match l with
  | Conv2D f (kh, kw) _ _ => (kh * kw * c_in + 1) * f
  | Dense u _ => (c_in + 1) * u
  | MaxPooling2D _ | Flatten | Dropout _ => 0
  end.

(** None of these layers owns a weight that training leaves alone. *)
Definition non_trainable_params (l : layer) (s : shape) : N :=
  match l with
  | Conv2D _ _ _ _ | Dense _ _ | MaxPooling2D _ | Flatten | Dropout _ => 0
  end.

(** A symbolic tensor of the functional API: an [Input], or the output
    of a layer called on another tensor. *)
Inductive tensor :=
| KInput (s : shape) (name : string)
| KNode (l : layer) (out : shape) (inbound : tensor).

Definition tensor_shape (t : tensor) : shape :=
  match t with KInput s _ => s | KNode _ out _ => out end.

(** [layer(x)] *)
Definition call (l : layer) (x : tensor) : result tensor :=
  result_bind (compute_output_shape l (tensor_shape x)) (fun out =>
  Ok (KNode l out x)).

Record Model := {
  m_input_shape : shape;
  m_input_name : string;
  m_layers : list layer
}.

(** Walk from a tensor back to the [Input] it was computed from,
    collecting the layers on the way, first layer first. *)
Fixpoint trace_back (t : tensor) : shape * string * list layer :=
  match t with
  | KInput s name => (s, name, [])
  | KNode l _ x => let '(s, name, ls) := trace_back x in (s, name, ls ++ [l])
  end.

(** [Model(inputs=[inputs], outputs=[outputs])]: the graph between the
    two tensors; the output has to be computed from the given input. *)
Definition new_Model (inputs outputs : tensor) : result Model :=
  match inputs with
  | KInput s name =>
      let '(s', name', ls) := trace_back outputs in
      if decide (s' = s /\ name' = name)
      then Ok {| m_input_shape := s; m_input_name := name; m_layers := ls |}
      else Raise ValueError
  | KNode _ _ _ => Raise ValueError
  end.

(** The rows of [model.summary()] below the input row: class, output
    shape and parameter count of every layer, in order. *)
Fixpoint summary_rows (s : shape) (ls : list layer)
  : result (list (string * shape * N)) :=
  match ls with
  | [] => Ok []
  | l :: ls' =>
      result_bind (compute_output_shape l s) (fun out =>
      result_bind (summary_rows out ls') (fun rows =>
      Ok ((class_name l, out, trainable_params l s + non_trainable_params l s)
            :: rows)))
  end.

Fixpoint sum_params (count : layer -> shape -> N) (s : shape) (ls : list layer)
  : result N :=
  match ls with
  | [] => Ok 0
  | l :: ls' =>
      result_bind (compute_output_shape l s) (fun out =>
      result_bind (sum_params count out ls') (fun n => Ok (count l s + n)))
  end.

Definition count_trainable (m : Model) : result N :=
  sum_params trainable_params (m_input_shape m) (m_layers m).
Definition count_non_trainable (m : Model) : result N :=
  sum_params non_trainable_params (m_input_shape m) (m_layers m).

(** Shape of what the model computes for one input. *)
Fixpoint output_shape (s : shape) (ls : list layer) : result shape :=
  match ls with
  | [] => Ok s
  | l :: ls' => result_bind (compute_output_shape l s) (fun out => output_shape out ls')
  end.

(** The number of output units: the width of a row of predictions and
    of a row of targets. *)
Definition units (m : Model) : result nat :=
  result_bind (output_shape (m_input_shape m) (m_layers m)) (fun out =>
  Ok (N.to_nat (foldr N.mul 1 out))).

(** What the framework does with an array of images handed to the model:
    it refuses an empty array, and an image that is not of the shape the
    model's [Input] was declared with. *)
Definition feed (m : Model) (x : fimages) : result unit :=
  match x with
  | [] => Raise ValueError
  | _ :: _ =>
      if forallb (np.has_shape (m_input_shape m)) x then Ok tt
      else Raise InvalidArgumentError
  end.

(** Images with their targets: one row of targets per image, as wide as
    the model's output. *)
Definition check_data (m : Model) (x : fimages) (y : fmatrix) : result unit :=
  if negb (length x =? length y)%nat then Raise ValueError
  else
    result_bind (feed m x) (fun _ =>
    result_bind (units m) (fun k =>
    if forallb (fun row => (length row =? k)%nat) y then Ok tt
    else Raise InvalidArgumentError)).

(** *** Training configuration *)

Inductive loss_fn := categorical_crossentropy.
Inductive optimizer := Adam (learning_rate : Q).
Inductive metric := accuracy | AUC | Precision | Recall.

Record compile_args := {
  c_loss : loss_fn;
  c_optimizer : optimizer;
  c_metrics : list metric
}.

(** What [evaluate] reports: the loss, then every compiled metric. *)
Inductive quantity := QLoss | QMetric (m : metric).

Definition quantities (c : compile_args) : list quantity :=
  QLoss :: map QMetric (c_metrics c).

(** The names under which training logs them (as the progress line of
    the fit cell shows: loss, accuracy, auc, precision, recall). *)
Definition quantity_name (q : quantity) : string :=
  match q with
  | QLoss => "loss"
  | QMetric accuracy => "accuracy"
  | QMetric AUC => "auc"
  | QMetric Precision => "precision"
  | QMetric Recall => "recall"
  end.

Record TensorBoard := {
  log_dir : string;
  histogram_freq : N;
  write_graph : bool;
  write_images : bool
}.

Record ImageDataGenerator := {
  rotation_range : N;
  width_shift_range : Q;
  height_shift_range : Q;
  horizontal_flip : bool
}.

(** [datagen.flow(x, y, batch_size)] *)
Record NumpyArrayIterator := {
  it_generator : ImageDataGenerator;
  it_x : fimages;
  it_y : fmatrix;
  it_batch_size : N
}.

Record fit_args := {
  fit_x : NumpyArrayIterator;
  fit_epochs : N;
  fit_validation_data : fimages * fmatrix;
  fit_callbacks : list TensorBoard
}.

(** [history.history]: a curve of one value per epoch for every logged
    name. *)
Definition History := list (string * list float).

(** What [evaluate] returns: the loss alone, a bare float, for a model
    compiled without metrics; otherwise the list of the loss and the
    metrics. *)
Inductive score :=
| Scalar (loss : float)
| Scores (values : list float).

(** *** keras.utils.to_categorical *)

(** Modelled from the spec: [keras.utils.to_categorical] is framework
    code the notebook calls and does not contain; the "one-hot-encode
    labels" step is taken as the framework documents it.  [one_hot] is
    one row of the class matrix: zeros, with a one written at the label's
    column; a label past the last column is an index error. *)
Definition one_hot (num_classes c : N) : result (list float) :=
  if c <? num_classes
  then Ok (<[N.to_nat c := Fin 1]> (replicate (N.to_nat num_classes) (Fin 0)))
  else Raise IndexError.

(** Modelled from the spec: [to_categorical(y, num_classes)], framework
    code as above: the labels are flattened, the number of classes
    defaults to the largest label plus one when it is not given (or given
    as 0), and a matrix of zeros with one row per label gets a one at
    each (row, label). *)
Definition to_categorical (y : list N) (num_classes : N) : result fmatrix :=
  result_bind
    (if num_classes =? 0
     then match y with
          | [] => Raise ValueError
          | c :: cs => Ok (fold_left N.max cs c + 1)
          end
     else Ok num_classes)
    (fun k => result_mapM (one_hot k) y).

End keras.

(** ** The trace of a run *)

(** Something [print] shows. *)
Inductive item :=
| IStr (s : string)
| INum (n : N)
| IFloat (x : float)
| IShape (s : list N)
| IIndices (l : list nat).

Inductive plt_call :=
| plot (curves : list (list N * list float * string))
| legend (names : list string)
| title (s : string)
| xlabel (s : string)
| ylabel (s : string)
| subplots (nrows ncols : N)
| subplot (nrows ncols index : N)
| imshow (X : ndarray)
| axis (s : string).

(** One entry per binding of a name and per framework call, with the
    arguments the call was given.  A call is logged when it returns,
    except the three that run the model, [fit], [evaluate] and [predict]:
    those are logged as they start on their data, also when they go on to
    raise. *)
Inductive event :=
| Assign (name : string)
| Import (module : string)
| LoadData
| Divide
| ToCategorical
| NewInput (s : keras.shape) (name : string)
| CallLayer (l : keras.layer)
| NewModel
| NewTensorBoard (tb : keras.TensorBoard)
| Compile (args : keras.compile_args)
| Summary (rows : list (string * keras.shape * N))
| NewImageDataGenerator (g : keras.ImageDataGenerator)
| Magic (line : string)
| Fit (args : keras.fit_args)
| Evaluate (x : fimages) (y : fmatrix)
| Print (items : list item)
| Plt (c : plt_call)
| Predict (x : fimages)
| Save (path : string)
| Shell (cmd : string).

(** The steps of the pipeline. *)
Inductive step :=
| SLoad | SNormalize | SOneHot | SDeclare | SCompile
| SFit | SEvaluate | SVisualize | SPersist.

Definition pipeline : list step :=
  [SLoad; SNormalize; SOneHot; SDeclare; SCompile;
   SFit; SEvaluate; SVisualize; SPersist].

(** The step a call belongs to.  The visualize step is the display of a
    sample image.  Bindings, imports, printing, the construction of
    callbacks and generators, IPython magics, shell escapes, the
    loss-curve figure and predictions that are not displayed belong to
    none. *)
Definition step_of (e : event) : option step :=
  match e with
  | LoadData => Some SLoad
  | Divide => Some SNormalize
  | ToCategorical => Some SOneHot
  | NewInput _ _ | CallLayer _ | NewModel => Some SDeclare
  | Compile _ => Some SCompile
  | Fit _ => Some SFit
  | Evaluate _ _ => Some SEvaluate
  | Plt (imshow _) => Some SVisualize
  | Save _ => Some SPersist
  | _ => None
  end.

Definition step_eqb (a b : step) : bool :=
  match a, b with
  | SLoad, SLoad | SNormalize, SNormalize | SOneHot, SOneHot
  | SDeclare, SDeclare | SCompile, SCompile | SFit, SFit
  | SEvaluate, SEvaluate | SVisualize, SVisualize | SPersist, SPersist => true
  | _, _ => false
  end.

(** Drop every element equal to its predecessor. *)
Fixpoint compress (l : list step) : list step :=
  match l with
  | a :: (b :: _) as l' => if step_eqb a b then compress l' else a :: compress l'
  | _ => l
  end.

(** The steps of a trace, in the order they were first entered. *)
Definition steps (log : list event) : list step :=
  compress (omap step_of log).

Definition is_assign (name : string) (e : event) : bool :=
  match e with Assign n => bool_decide (n = name) | _ => false end.

Definition assignments (name : string) (log : list event) : nat :=
  length (filter (fun e => is_assign name e = true) log).

Definition fit_calls (log : list event) : list keras.fit_args :=
  omap (fun e => match e with Fit a => Some a | _ => None end) log.

Definition compile_calls (log : list event) : list keras.compile_args :=
  omap (fun e => match e with Compile a => Some a | _ => None end) log.

Definition evaluate_calls (log : list event) : list (fimages * fmatrix) :=
  omap (fun e => match e with Evaluate x y => Some (x, y) | _ => None end) log.

Definition prints (log : list event) : list (list item) :=
  omap (fun e => match e with Print i => Some i | _ => None end) log.

(** ** The interpreter state and its monad *)

(** The trace, and the state of the model object: what it was compiled
    with, and the calls of [fit] that shaped its weights. *)
Record world := {
  w_log : list event;
  w_compiled : option keras.compile_args;
  w_fits : list keras.fit_args
}.

Definition fresh : world :=
  {| w_log := []; w_compiled := None; w_fits := [] |}.

Definition Py (A : Type) : Type := world -> result A * world.

#[export] Instance Py_ret : MRet Py := fun A a w => (Ok a, w).
#[export] Instance Py_bind : MBind Py := fun A B f m w =>
  match m w with
  | (Ok a, w') => f a w'
  | (Raise e, w') => (Raise e, w')
  end.

Definition lift {A} (r : result A) : Py A := fun w => (r, w).

(** The world after more calls were logged. *)
Definition extend (w : world) (l : list event) : world :=
  {| w_log := w_log w ++ l; w_compiled := w_compiled w; w_fits := w_fits w |}.

Definition emit (e : event) : Py unit := fun w => (Ok tt, extend w [e]).

(** The state of the model object: the configuration [compile] stored
    (a model that was never compiled cannot be trained or evaluated), and
    the calls of [fit] so far. *)
Definition compiled : Py keras.compile_args := fun w =>
  match w_compiled w with
  | Some c => (Ok c, w)
  | None => (Raise RuntimeError, w)
  end.

Definition set_compiled (c : keras.compile_args) : Py unit := fun w =>
  (Ok tt, {| w_log := w_log w; w_compiled := Some c; w_fits := w_fits w |}).

Definition get_fits : Py (list keras.fit_args) := fun w => (Ok (w_fits w), w).

Definition add_fit (a : keras.fit_args) : Py unit := fun w =>
  (Ok tt, {| w_log := w_log w; w_compiled := w_compiled w;
             w_fits := w_fits w ++ [a] |}).

Fixpoint emit_all (es : list event) : Py unit :=
  match es with
  | [] => mret tt
  | e :: es' => emit e;; emit_all es'
  end.

(** [name = m] and [n1, n2, ... = m] *)
Definition assign_all {A} (names : list string) (m : Py A) : Py A :=
  v ← m; emit_all (map Assign names);; mret v.
Definition assign {A} (name : string) (m : Py A) : Py A :=
  assign_all [name] m.
Notation "name ::= m" := (assign name m) (at level 55, no associativity).

(** The value of a successful call, logged once it has returned. *)
Definition perform {A} (e : event) (r : result A) : Py A :=
  v ← lift r; emit e;; mret v.

Fixpoint for_ {A} (l : list A) (body : A -> Py unit) : Py unit :=
  match l with
  | [] => mret tt
  | a :: l' => body a;; for_ l' body
  end.

Definition enumerate {A} (l : list A) : list (nat * A) :=
  imap (fun i a => (i, a)) l.

(** [l[i]] *)
Definition getitem {A} (l : list A) (i : nat) : result A :=
  match l !! i with
  | Some a => Ok a
  | None => Raise IndexError
  end.

(** [score[i]]: a float cannot be indexed. *)
Definition score_getitem (s : keras.score) (i : nat) : result float :=
  match s with
  | keras.Scalar _ => Raise TypeError
  | keras.Scores l => getitem l i
  end.

(** [d[key]] *)
Fixpoint getkey {A} (d : list (string * A)) (key : string) : result A :=
  match d with
  | [] => Raise KeyError
  | (k, v) :: d' => if bool_decide (k = key) then Ok v else getkey d' key
  end.

(** [range(a, b)] *)
Definition range (a b : N) : list N :=
  map (fun i => a + N.of_nat i) (seq 0 (N.to_nat (b - a))).

(** ** The notebook *)

Section Notebook.

(** What the world outside the script supplies: the arrays
    [cifar10.load_data()] returns, and the numbers the framework computes
    from weights, which depend on the calls of [fit] made so far:
    [forward fits img k] is output unit [k] of the network on [img],
    [measure fits q x y] the value of quantity [q] on a data set, and
    [curve fits name epoch] a logged value of the last call of [fit]. *)
Variable cifar10 : dataset.
Variable forward : list keras.fit_args -> fimage -> nat -> float.
Variable measure : list keras.fit_args -> keras.quantity -> fimages -> fmatrix -> float.
Variable curve : list keras.fit_args -> string -> nat -> float.

(** *** Framework calls, as statements *)

Definition load_data : Py (u8images * list N * u8images * list N) :=
  perform LoadData
    (Ok (ds_x_train cifar10, ds_y_train cifar10,
         ds_x_test cifar10, ds_y_test cifar10)).

(** [a / m] *)
Definition ndarray_div (a : u8images) (m : N) : Py fimages :=
  perform Divide (Ok (np.divide a m)).

Definition to_categorical (y : list N) (num_classes : N) : Py fmatrix :=
  perform ToCategorical (keras.to_categorical y num_classes).

Definition Input (s : keras.shape) (name : string) : Py keras.tensor :=
  perform (NewInput s name) (Ok (keras.KInput s name)).

(** [layer(x)] *)
Definition apply (l : keras.layer) (x : keras.tensor) : Py keras.tensor :=
  perform (CallLayer l) (keras.call l x).

Definition Model (inputs outputs : keras.tensor) : Py keras.Model :=
  perform NewModel (keras.new_Model inputs outputs).

Definition TensorBoard (tb : keras.TensorBoard) : Py keras.TensorBoard :=
  perform (NewTensorBoard tb) (Ok tb).

Definition ImageDataGenerator (g : keras.ImageDataGenerator)
  : Py keras.ImageDataGenerator :=
  perform (NewImageDataGenerator g) (Ok g).

Definition print (items : list item) : Py unit := emit (Print items).
Definition magic (line : string) : Py unit := emit (Magic line).
Definition shell (cmd : string) : Py unit := emit (Shell cmd).
Definition import (module : string) : Py unit := emit (Import module).

(** [model.compile(...)] stores the configuration in the model. *)
Definition compile (model : keras.Model) (args : keras.compile_args) : Py unit :=
  emit (Compile args);; set_compiled args.

Definition summary (model : keras.Model) : Py unit :=
  rows ← lift (keras.summary_rows (keras.m_input_shape model) (keras.m_layers model));
  emit (Summary (("InputLayer", keras.m_input_shape model, 0) :: rows)).

(** [model.fit(datagen.flow(x, y, batch_size), ...)] trains the compiled
    model and returns the curves of the loss and of each metric, on the
    training and on the validation data, one value per epoch.  With no
    epoch to run nothing is trained and the history is empty.  Otherwise
    the images and targets the iterator was built on have to suit the
    model (one row of targets per image, which is what [flow] asks for,
    and the shapes the model was declared with), and, after the weights
    were updated, those of the validation data. *)
Definition fit (model : keras.Model) (args : keras.fit_args) : Py keras.History :=
  c ← compiled;
  emit (Fit args);;
  if keras.fit_epochs args =? 0 then mret []
  else
    lift (keras.check_data model (keras.it_x (keras.fit_x args))
                                 (keras.it_y (keras.fit_x args)));;
    add_fit args;;
    lift (keras.check_data model (keras.fit_validation_data args).1
                                 (keras.fit_validation_data args).2);;
    fits ← get_fits;
    let names := map keras.quantity_name (keras.quantities c) in
    let epochs := seq 0 (N.to_nat (keras.fit_epochs args)) in
    mret (map (fun name => (name, map (curve fits name) epochs))
              (names ++ map (String.append "val_") names)).

(** Modelled from the spec: [model.evaluate(x, y)] is framework code the
    notebook calls and does not contain; the "evaluate" step is taken as
    the framework documents it, returning the loss and then the compiled
    metrics, in the order they were compiled in (the loss alone, as a
    bare float, when there are no metrics), on images and targets that
    suit the model. *)
Definition evaluate (model : keras.Model) (x : fimages) (y : fmatrix)
  : Py keras.score :=
  c ← compiled;
  emit (Evaluate x y);;
  lift (keras.check_data model x y);;
  fits ← get_fits;
  mret (match keras.c_metrics c with
        | [] => keras.Scalar (measure fits keras.QLoss x y)
        | _ :: _ =>
            keras.Scores (map (fun q => measure fits q x y) (keras.quantities c))
        end).

(** [model.predict(x)], for at least one image, each of the declared
    shape: one row per image, one column per output unit (the output is
    laid out flat). *)
Definition predict (model : keras.Model) (x : fimages) : Py fmatrix :=
  k ← lift (keras.units model);
  emit (Predict x);;
  lift (keras.feed model x);;
  fits ← get_fits;
  mret (map (fun img => map (forward fits img) (seq 0 k)) x).

Definition save (model : keras.Model) (path : string) : Py unit :=
  emit (Save path).

(** [plt.plot(x1, y1, fmt1, x2, y2, fmt2)]: the two axes of a curve have
    to agree in length. *)
Definition plt_plot (curves : list (list N * list float * string)) : Py unit :=
  if forallb (fun '(xs, ys, _) => Nat.eqb (length xs) (length ys)) curves
  then emit (Plt (plot curves))
  else lift (Raise ValueError).

(** [plt.subplot(nrows, ncols, index)]: the index counts the cells of
    the grid from 1. *)
Definition plt_subplot (nrows ncols index : N) : Py unit :=
  if (1 <=? index) && (index <=? nrows * ncols)
  then emit (Plt (subplot nrows ncols index))
  else lift (Raise ValueError).

(** [plt.imshow(X)] draws an array of shape (M, N), (M, N, 3) or
    (M, N, 4), and no other. *)
Definition plt_imshow (X : ndarray) : Py unit :=
  match nd_shape X with
  | [_; _] => emit (Plt (imshow X))
  | [_; _; c] =>
      if (c =? 3) || (c =? 4) then emit (Plt (imshow X))
      else lift (Raise TypeError)
  | _ => lift (Raise TypeError)
  end.

Definition plt (c : plt_call) : Py unit := emit (Plt c).

(** *** The cells, in the order of the file *)

Definition cell_01 : Py unit :=
  import "tensorflow.keras";;
  import "tensorflow.keras.datasets.cifar10";;
  import "tensorflow.keras.layers";;
  import "tensorflow.keras.layers";;
  import "tensorflow.keras.models";;
  import "tensorflow.keras.preprocessing.image".

Definition cell_02 : Py (N * N * N) :=
  batch_size ← "batch_size" ::= mret 128;
  num_classes ← "num_classes" ::= mret 10;
  epochs ← "epochs" ::= mret 14;
  mret (batch_size, num_classes, epochs).

Definition cell_03 : Py keras.shape :=
  '(img_rows, img_cols, n_channels) ←
    assign_all ["img_rows"; "img_cols"; "n_channels"] (mret (32, 32, 3));
  "input_shape" ::= mret [img_rows; img_cols; n_channels].

Definition cell_04
  : Py (u8images * list N * u8images * list N * fimages * fimages) :=
  '(x_train, y_train, x_test, y_test) ←
    assign_all ["x_train"; "y_train"; "x_test"; "y_test"] load_data;
  (* Scale images between 0 and 1 *)
  x_train_norm ← "x_train_norm" ::=
    (m ← lift (np.max x_train); ndarray_div x_train m);
  x_test_norm ← "x_test_norm" ::=
    (m ← lift (np.max x_train); ndarray_div x_test m);
  mret (x_train, y_train, x_test, y_test, x_train_norm, x_test_norm).

Definition cell_05 (x_train x_test : u8images) : Py unit :=
  print [IStr "x_train shape:"; IShape (np.shape x_train)];;
  s ← lift (getitem (np.shape x_train) 0);
  print [INum s; IStr "train samples"];;
  s ← lift (getitem (np.shape x_test) 0);
  print [INum s; IStr "test samples"].

Definition cell_06 (num_classes : N) (y_train y_test : list N)
  : Py (fmatrix * fmatrix) :=
  (* convert class vectors to binary class matrices *)
  y_train ← "y_train" ::= to_categorical y_train num_classes;
  y_test ← "y_test" ::= to_categorical y_test num_classes;
  mret (y_train, y_test).

Definition cell_07 (input_shape : keras.shape) (num_classes : N)
  : Py keras.Model :=
  inputs ← "inputs" ::= Input input_shape "input_images";
  (* Block 1 *)
  conv1 ← "conv1" ::= apply (keras.Conv2D 64 (3, 3) keras.relu keras.same) inputs;
  conv2 ← "conv2" ::= apply (keras.Conv2D 64 (3, 3) keras.relu keras.same) conv1;
  max2 ← "max2" ::= apply (keras.MaxPooling2D (2, 2)) conv2;
  (* Block 2 *)
  conv3 ← "conv3" ::= apply (keras.Conv2D 96 (3, 3) keras.relu keras.same) max2;
  conv4 ← "conv4" ::= apply (keras.Conv2D 96 (3, 3) keras.relu keras.same) conv3;
  max3 ← "max3" ::= apply (keras.MaxPooling2D (2, 2)) conv4;
  (* Block 3 *)
  conv5 ← "conv5" ::= apply (keras.Conv2D 192 (3, 3) keras.relu keras.same) max3;
  conv6 ← "conv6" ::= apply (keras.Conv2D 192 (3, 3) keras.relu keras.same) conv5;
  conv7 ← "conv7" ::= apply (keras.Conv2D 192 (1, 1) keras.relu keras.same) conv6;
  max4 ← "max4" ::= apply (keras.MaxPooling2D (2, 2)) conv7;
  (* Block 4 *)
  conv8 ← "conv8" ::= apply (keras.Conv2D 224 (3, 3) keras.relu keras.same) max4;
  conv9 ← "conv9" ::= apply (keras.Conv2D 224 (3, 3) keras.relu keras.same) conv8;
  conv10 ← "conv10" ::= apply (keras.Conv2D 224 (1, 1) keras.relu keras.same) conv9;
  layer11 ← "layer11" ::= apply keras.Flatten conv10;
  layer12 ← "layer12" ::= apply (keras.Dense 1024 keras.relu) layer11;
  layer13 ← "layer13" ::= apply (keras.Dropout (1 # 2)) layer12;
  layer14 ← "layer14" ::= apply (keras.Dense 1024 keras.relu) layer13;
  layer15 ← "layer15" ::= apply (keras.Dense num_classes keras.softmax) layer14;
  "model" ::= Model inputs layer15.

Definition cell_08 : Py keras.TensorBoard :=
  "tb_log" ::= TensorBoard
    {| keras.log_dir := "./logs";
       keras.histogram_freq := 10;
       keras.write_graph := true;
       keras.write_images := true |}.

Definition cell_09 (model : keras.Model) : Py unit :=
  compile model
    {| keras.c_loss := keras.categorical_crossentropy;
       keras.c_optimizer := keras.Adam (1 # 100000);
       keras.c_metrics :=
         [keras.accuracy; keras.AUC; keras.Precision; keras.Recall] |}.

Definition cell_10 (model : keras.Model) : Py unit :=
  summary model.

Definition cell_11 : Py keras.ImageDataGenerator :=
  "datagen" ::= ImageDataGenerator
    {| keras.rotation_range := 20;
       keras.width_shift_range := 2 # 10;
       keras.height_shift_range := 2 # 10;
       keras.horizontal_flip := true |}.

Definition cell_12 : Py unit :=
  magic "%load_ext tensorboard";;
  magic "%tensorboard --logdir logs".

Definition cell_13 (model : keras.Model) (datagen : keras.ImageDataGenerator)
    (batch_size epochs : N) (x_train_norm x_test_norm : fimages)
    (y_train y_test : fmatrix) (tb_log : keras.TensorBoard)
  : Py keras.History :=
  (* fits the model on batches with real-time data augmentation: *)
  "history" ::= fit model
    {| keras.fit_x :=
         {| keras.it_generator := datagen;
            keras.it_x := x_train_norm;
            keras.it_y := y_train;
            keras.it_batch_size := batch_size |};
       keras.fit_epochs := epochs;
       keras.fit_validation_data := (x_test_norm, y_test);
       keras.fit_callbacks := [tb_log] |}.

Definition cell_14 (model : keras.Model) (x_test_norm : fimages)
    (y_test : fmatrix) : Py keras.score :=
  score ← "score" ::= evaluate model x_test_norm y_test;
  s ← lift (score_getitem score 0); print [IStr "Test loss:"; IFloat s];;
  s ← lift (score_getitem score 1); print [IStr "Test accuracy:"; IFloat s];;
  s ← lift (score_getitem score 2); print [IStr "Test AUC:"; IFloat s];;
  s ← lift (score_getitem score 3); print [IStr "Test Precision:"; IFloat s];;
  s ← lift (score_getitem score 4); print [IStr "Test Recall:"; IFloat s];;
  mret score.

Definition cell_15 : Py unit :=
  import "matplotlib.pyplot";;
  magic "%matplotlib inline".

Definition cell_16 (epochs : N) (history : keras.History) : Py unit :=
  loss ← lift (getkey history "loss");
  val_loss ← lift (getkey history "val_loss");
  plt_plot [(range 1 (epochs + 1), loss, ".-");
            (range 1 (epochs + 1), val_loss, ".-")];;
  plt (legend ["training loss"; "testing loss"]);;
  plt (title "Loss curve");;
  plt (xlabel "Epoch");;
  plt (ylabel "Loss").

Definition cell_17 : Py (list string) :=
  "labels" ::= mret ["airplane"; "automobile"; "bird"; "cat"; "deer";
                     "dog"; "frog"; "horse"; "ship"; "truck"].

Definition cell_18 (model : keras.Model) (x_test_norm : fimages)
  : Py (list nat) :=
  all_predictions ← "all_predictions" ::=
    (p ← predict model x_test_norm; lift (np.argmax_axis1 p));
  print [IIndices all_predictions];;
  mret all_predictions.

Definition cell_19 : Py unit :=
  import "numpy".

(** The body of the loop of cell 20, for sample [n] at position [i]. *)
Definition show_sample (model : keras.Model) (x_test : u8images)
    (x_test_norm : fimages) (y_test : fmatrix) (labels : list string)
    (nrows : N) (i : nat) (n : N) : Py unit :=
  emit_all [Assign "i"; Assign "n"];;
  img_norm ← "img_norm" ::=
    (x ← lift (getitem x_test_norm (N.to_nat n)); mret (np.expand_dims0 x));
  img ← "img" ::=
    (x ← lift (getitem x_test (N.to_nat n)); mret (np.expand_dims0 x));
  plt_subplot nrows 2 (N.of_nat i + 1);;
  plt_imshow (np.squeeze img);;
  plt (axis "off");;
  label ← "label" ::= (row ← lift (getitem y_test (N.to_nat n)); lift (np.argmax row));
  predicted_label ← "predicted_label" ::=
    (* Predict for just one image *)
    (p ← predict model img_norm; lift (np.argmax_flat p));
  actual ← lift (getitem labels label);
  predicted ← lift (getitem labels predicted_label);
  plt (title ("Actual = " +:+ actual +:+ ", Predicted = " +:+ predicted)).

Definition cell_20 (model : keras.Model) (x_test : u8images)
    (x_test_norm : fimages) (y_test : fmatrix) (labels : list string)
  : Py unit :=
  (* Just print out some random examples from the test set *)
  samples ← "samples" ::= mret [4; 83; 298; 1045; 3751; 5555; 7112; 8953];
  plt (subplots (N.of_nat (length samples) / 2) 2);;
  for_ (enumerate samples) (fun '(i, n) =>
    show_sample model x_test x_test_norm y_test labels
      (N.of_nat (length samples) / 2) i n).

Definition cell_21 (model : keras.Model) : Py unit :=
  save model "my_vgg_model";;
  shell "ls my_vgg_model".

(** The notebook: its cells run from top to bottom. *)
Definition notebook : Py unit :=
  cell_01;;
  '(batch_size, num_classes, epochs) ← cell_02;
  input_shape ← cell_03;
  '(x_train, y_train, x_test, y_test, x_train_norm, x_test_norm) ← cell_04;
  cell_05 x_train x_test;;
  '(y_train, y_test) ← cell_06 num_classes y_train y_test;
  model ← cell_07 input_shape num_classes;
  tb_log ← cell_08;
  cell_09 model;;
  cell_10 model;;
  datagen ← cell_11;
  cell_12;;
  history ← cell_13 model datagen batch_size epochs
              x_train_norm x_test_norm y_train y_test tb_log;
  score ← cell_14 model x_test_norm y_test;
  cell_15;;
  cell_16 epochs history;;
  labels ← cell_17;
  all_predictions ← cell_18 model x_test_norm;
  cell_19;;
  cell_20 model x_test x_test_norm y_test labels;;
  cell_21 model.

End Notebook.

(** ** Vocabulary of the statements *)

(** All the numbers of a float image array. *)
Definition fravel (a : fimages) : list float := concat (concat (concat a)).

(** [row] is the one-hot vector of class [c] among [k] classes: [k]
    entries, a one at index [c], a zero everywhere else. *)
Definition is_one_hot (k : nat) (c : N) (row : list float) : Prop :=
  length row = k /\
  forall j, (j < k)%nat ->
    row !! j = Some (if decide (j = N.to_nat c) then Fin 1 else Fin 0).

(** The declared topology, as the notebook's cell 7 spells it. *)
Definition vgg_layers : list keras.layer :=
  [keras.Conv2D 64 (3, 3) keras.relu keras.same;
   keras.Conv2D 64 (3, 3) keras.relu keras.same;
   keras.MaxPooling2D (2, 2);
   keras.Conv2D 96 (3, 3) keras.relu keras.same;
   keras.Conv2D 96 (3, 3) keras.relu keras.same;
   keras.MaxPooling2D (2, 2);
   keras.Conv2D 192 (3, 3) keras.relu keras.same;
   keras.Conv2D 192 (3, 3) keras.relu keras.same;
   keras.Conv2D 192 (1, 1) keras.relu keras.same;
   keras.MaxPooling2D (2, 2);
   keras.Conv2D 224 (3, 3) keras.relu keras.same;
   keras.Conv2D 224 (3, 3) keras.relu keras.same;
   keras.Conv2D 224 (1, 1) keras.relu keras.same;
   keras.Flatten;
   keras.Dense 1024 keras.relu;
   keras.Dropout (1 # 2);
   keras.Dense 1024 keras.relu;
   keras.Dense 10 keras.softmax].

Definition vgg : keras.Model :=
  {| keras.m_input_shape := [32; 32; 3];
     keras.m_input_name := "input_images";
     keras.m_layers := vgg_layers |}.

(** The table [model.summary()] printed when the notebook was last run
    (the output stored with cell 10), below its input row. *)
Definition recorded_summary : list (string * keras.shape * N) :=
  [("Conv2D", [32; 32; 64], 1792);
   ("Conv2D", [32; 32; 64], 36928);
   ("MaxPooling2D", [16; 16; 64], 0);
   ("Conv2D", [16; 16; 96], 55392);
   ("Conv2D", [16; 16; 96], 83040);
   ("MaxPooling2D", [8; 8; 96], 0);
   ("Conv2D", [8; 8; 192], 166080);
   ("Conv2D", [8; 8; 192], 331968);
   ("Conv2D", [8; 8; 192], 37056);
   ("MaxPooling2D", [4; 4; 192], 0);
   ("Conv2D", [4; 4; 224], 387296);
   ("Conv2D", [4; 4; 224], 451808);
   ("Conv2D", [4; 4; 224], 50400);
   ("Flatten", [3584], 0);
   ("Dense", [1024], 3671040);
   ("Dropout", [1024], 0);
   ("Dense", [1024], 1049600);
   ("Dense", [10], 10250)].

(** The configuration cell 9 compiles the model with. *)
Definition vgg_compile : keras.compile_args :=
  {| keras.c_loss := keras.categorical_crossentropy;
     keras.c_optimizer := keras.Adam (1 # 100000);
     keras.c_metrics :=
       [keras.accuracy; keras.AUC; keras.Precision; keras.Recall] |}.

(** The call of [fit] the notebook makes, given the normalized images and
    the one-hot labels. *)
Definition vgg_fit (x_train_norm x_test_norm : fimages)
    (y_train y_test : fmatrix) : keras.fit_args :=
  {| keras.fit_x :=
       {| keras.it_generator :=
            {| keras.rotation_range := 20;
               keras.width_shift_range := 2 # 10;
               keras.height_shift_range := 2 # 10;
               keras.horizontal_flip := true |};
          keras.it_x := x_train_norm;
          keras.it_y := y_train;
          keras.it_batch_size := 128 |};
     keras.fit_epochs := 14;
     keras.fit_validation_data := (x_test_norm, y_test);
     keras.fit_callbacks :=
       [{| keras.log_dir := "./logs";
           keras.histogram_freq := 10;
           keras.write_graph := true;
           keras.write_images := true |}] |}.

(** The calls cell 20 can log: the bindings of its names, pyplot calls
    and predictions. *)
Definition display_event (e : event) : bool :=
  match e with
  | Assign name =>
      bool_decide (name ∈ ["samples"; "i"; "n"; "img_norm"; "img"; "label";
                           "predicted_label"])
  | Plt _ | Predict _ => true
  | _ => false
  end.

(** [m] changes the world by logging calls that satisfy [P], and in no
    other way, whether it returns or raises. *)
Definition appends {A} (P : event -> bool) (m : Py A) : Prop :=
  forall w, exists l, snd (m w) = extend w l /\ Forall (fun e => P e = true) l.

(** Whenever [m] returns, it has logged the display of an image. *)
Definition shows {A} (m : Py A) : Prop :=
  forall w a w', m w = (Ok a, w') ->
    exists l X, w' = extend w l /\ Plt (imshow X) ∈ l.

(** [m] returns only if [Q] holds. *)
Definition needs {A} (Q : Prop) (m : Py A) : Prop :=
  forall w a w', m w = (Ok a, w') -> Q.

(** Reading a trace from its start: no [evaluate] and no [save] before a
    [fit] has been seen. *)
Fixpoint fit_first (seen : bool) (log : list event) : bool :=
  match log with
  | [] => true
  | Fit _ :: log' => fit_first true log'
  | Evaluate _ _ :: log' | Save _ :: log' => seen && fit_first seen log'
  | _ :: log' => fit_first seen log'
  end.

(** The data passes normalization and label encoding: the training
    images have a pixel and every label is a class index. *)
Definition well_formed (ds : dataset) : Prop :=
  np.ravel (ds_x_train ds) <> [] /\
  Forall (fun c => c < 10) (ds_y_train ds) /\
  Forall (fun c => c < 10) (ds_y_test ds).

(** The data has the form of CIFAR-10: every image is 32 by 32 pixels of
    3 channels, the shape the model is declared for, and there is one
    label per image. *)
Definition cifar_shaped (ds : dataset) : Prop :=
  Forall (fun img => np.has_shape [32; 32; 3] img = true) (ds_x_train ds) /\
  Forall (fun img => np.has_shape [32; 32; 3] img = true) (ds_x_test ds) /\
  length (ds_x_train ds) = length (ds_y_train ds) /\
  length (ds_x_test ds) = length (ds_y_test ds).

(** The run of the notebook on a data set can reach its end: the data is
    well-formed and has the form of CIFAR-10, normalization divides by a
    positive maximum, and the test set holds the samples cell 20
    displays. *)
Definition runnable (ds : dataset) : Prop :=
  well_formed ds /\
  cifar_shaped ds /\
  (exists p, p ∈ np.ravel (ds_x_train ds) /\ 0 < p) /\
  (N.to_nat 8953 < length (ds_x_test ds))%nat.

(** The reading of "the normalize step scales the images between 0 and
    1" on a data set: cell 4 returns, and every number of both normalized
    arrays lies in [0,1]. *)
Definition scaled_to_unit (ds : dataset) : Prop :=
  exists x_train_norm x_test_norm,
    fst (cell_04 ds fresh)
      = Ok (ds_x_train ds, ds_y_train ds, ds_x_test ds, ds_y_test ds,
            x_train_norm, x_test_norm) /\
    Forall in_unit_interval (fravel x_train_norm) /\
    Forall in_unit_interval (fravel x_test_norm).

(** Every number of the images is finite. *)
Definition finite_images (x : fimages) : Prop :=
  Forall (fun v => isfinite v = true) (fravel x).

(** Cell 4 is well defined on a data set: it returns, and every division
    stayed off the floating-point error branch. *)
Definition normalization_defined (ds : dataset) : Prop :=
  exists x_train_norm x_test_norm,
    fst (cell_04 ds fresh)
      = Ok (ds_x_train ds, ds_y_train ds, ds_x_test ds, ds_y_test ds,
            x_train_norm, x_test_norm) /\
    Forall (fun x => isfinite x = true) (fravel x_train_norm) /\
    Forall (fun x => isfinite x = true) (fravel x_test_norm).

(** The labelled numbers a trace prints: [print(label, x)] with a float
    [x]. *)
Definition labelled_floats (log : list event) : list (string * float) :=
  omap (fun e => match e with
                 | Print [IStr s; IFloat x] => Some (s, x)
                 | _ => None
                 end) log.


(** *** Small data sets and stand-ins for the trained network *)

Definition tiny : dataset :=
  {| ds_x_train := [[[[3; 7]]]];
     ds_y_train := [2];
     ds_x_test := replicate (N.to_nat 8954) [[[5]]];
     ds_y_test := replicate (N.to_nat 8954) 3 |}.

(** An image of the shape of CIFAR-10 whose pixels all have the value
    [p] in each channel. *)
Definition flat_image (p : N) : u8image :=
  replicate 32 (replicate 32 [p; p; p]).

(** Data of the form of CIFAR-10 whose test image is brighter than its
    training image. *)
Definition bright_test : dataset :=
  {| ds_x_train := [flat_image 100];
     ds_y_train := [0];
     ds_x_test := [flat_image 200];
     ds_y_test := [0] |}.

(** Data of the form of CIFAR-10, with a test set large enough for the
    samples of cell 20. *)
Definition cifar_like : dataset :=
  {| ds_x_train := [flat_image 3; flat_image 7];
     ds_y_train := [2; 9];
     ds_x_test := replicate (N.to_nat 8954) (flat_image 5);
     ds_y_test := replicate (N.to_nat 8954) 3 |}.

Definition black_train : dataset :=
  {| ds_x_train := [[[[0; 0]]]];
     ds_y_train := [0];
     ds_x_test := [[[[0; 9]]]];
     ds_y_test := [0] |}.

Definition forward0 : list keras.fit_args -> fimage -> nat -> float :=
  fun _ _ k => Fin (Z.of_nat k # 10).
Definition measure0
  : list keras.fit_args -> keras.quantity -> fimages -> fmatrix -> float :=
  fun _ _ _ _ => Fin 0.
Definition curve0 : list keras.fit_args -> string -> nat -> float :=
  fun _ _ _ => Fin 1.

(** ** Vocabulary of the further properties *)

Definition save_calls (log : list event) : list string :=
  omap (fun e => match e with Save p => Some p | _ => None end) log.

Definition layer_calls (log : list event) : list keras.layer :=
  omap (fun e => match e with CallLayer l => Some l | _ => None end) log.

(** A stack of layers built with the functional API: each layer is called
    on the output of the one before and the result bound to its name, as
    cell 7 does line by line. *)
Fixpoint stack (x : keras.tensor) (ls : list (string * keras.layer))
  : Py keras.tensor :=
  match ls with
  | [] => mret x
  | (name, l) :: ls' => y ← name ::= apply l x; stack y ls'
  end.

(** The layers of cell 7 for [num_classes] classes, and the names the
    cell binds their outputs to. *)
Definition vgg_layers_for (num_classes : N) : list keras.layer :=
  take 17 vgg_layers ++ [keras.Dense num_classes keras.softmax].

Definition vgg_names : list string :=
  ["conv1"; "conv2"; "max2"; "conv3"; "conv4"; "max3"; "conv5"; "conv6";
   "conv7"; "max4"; "conv8"; "conv9"; "conv10"; "layer11"; "layer12";
   "layer13"; "layer14"; "layer15"].

(** The number of weights of the model of cell 7 on an input of [h] by
    [w] pixels and [c] channels, for [num_classes] classes. *)
Definition vgg_parameters (h w c num_classes : N) : N :=
  (3 * 3 * c + 1) * 64 + 1599968
  + ((h / 8) * (w / 8) * 224 + 1) * 1024 + 1049600
  + (1024 + 1) * num_classes.

(** Data of the form of CIFAR-10 with a test set of one image, too short
    for the samples of cell 20. *)
Definition short_test : dataset :=
  {| ds_x_train := [flat_image 7];
     ds_y_train := [2];
     ds_x_test := [flat_image 5];
     ds_y_test := [3] |}.

(** A training label that is no class index. *)
Definition bad_label : dataset :=
  {| ds_x_train := [[[[3; 7]]]];
     ds_y_train := [10];
     ds_x_test := [[[[5]]]];
     ds_y_test := [3] |}.

(** No training image at all. *)
Definition no_pixels : dataset :=
  {| ds_x_train := [];
     ds_y_train := [];
     ds_x_test := [[[[5]]]];
     ds_y_test := [3] |}.

(** The world right after cell 9 compiled the model. *)
Definition compiled_world : world :=
  {| w_log := []; w_compiled := Some vgg_compile; w_fits := [] |}.

(** One normalized image of the declared shape, and the one-hot row of
    class 7. *)
Definition one_image : fimages := np.divide [flat_image 5] 5.
Definition one_target : fmatrix := [<[7%nat := Fin 1]> (replicate 10 (Fin 0))].

(** * Verification *)

(** *** Arrays *)

Lemma fold_left_max_ge (l : list N) (a : N) : a <= fold_left N.max l a.
Proof.
  revert a; induction l as [|b l IH]; intros a; simpl; [lia|].
  specialize (IH (N.max a b)); lia.
Qed.

Lemma fold_left_max_bound (l : list N) (a : N) :
  Forall (fun x => x <= fold_left N.max l a) l.
Proof.
  revert a; induction l as [|b l IH]; intros a; simpl; constructor.
  - pose proof (fold_left_max_ge l (N.max a b)); lia.
  - apply IH.
Qed.

Lemma fold_left_max_in (l : list N) (a : N) :
  fold_left N.max l a ∈ a :: l.
Proof.
  revert a; induction l as [|b l IH]; intros a; simpl; [left|].
  specialize (IH (N.max a b)).
  apply elem_of_cons in IH as [-> | IH].
  - destruct (N.max_spec a b) as [[_ ->] | [_ ->]]; [right; left | left].
  - right; right; exact IH.
Qed.

Lemma max_bound a m : np.max a = Ok m -> Forall (fun x => x <= m) (np.ravel a).
Proof.
  unfold np.max; destruct (np.ravel a) as [|p ps]; [discriminate|].
  intros [= <-]; constructor.
  - apply fold_left_max_ge.
  - apply fold_left_max_bound.
Qed.

Lemma max_in a m : np.max a = Ok m -> m ∈ np.ravel a.
Proof.
  unfold np.max; destruct (np.ravel a) as [|p ps]; [discriminate|].
  intros [= <-]; apply fold_left_max_in.
Qed.

Lemma max_raises a : np.ravel a = [] -> np.max a = Raise ValueError.
Proof. unfold np.max; intros ->; reflexivity. Qed.

Lemma max_returns a : np.ravel a <> [] -> exists m, np.max a = Ok m.
Proof. unfold np.max; destruct (np.ravel a); [congruence | eauto]. Qed.

Lemma fravel_divide a m :
  fravel (np.divide a m) = map (fun x => np.true_divide x m) (np.ravel a).
Proof.
  unfold fravel, np.divide, np.ravel.
  now rewrite !concat_map.
Qed.

Lemma true_divide_unit x m : 0 < m -> x <= m -> in_unit_interval (np.true_divide x m).
Proof.
  intros Hm Hx; destruct m as [|d]; [lia|]; simpl.
  unfold Qle; simpl; lia.
Qed.

Lemma true_divide_finite x m : 0 < m -> isfinite (np.true_divide x m) = true.
Proof. destruct m; [lia | reflexivity]. Qed.

Lemma true_divide_zero x : isfinite (np.true_divide x 0) = false.
Proof. unfold np.true_divide; destruct (x =? 0); reflexivity. Qed.

(** *** One-hot rows and argmax *)

Lemma result_mapM_Forall2 {A B} (f : A -> result B) l bs :
  result_mapM f l = Ok bs <-> Forall2 (fun a b => f a = Ok b) l bs.
Proof.
  revert bs; induction l as [|a l IH]; intros bs; simpl.
  - split; [intros [= <-]; constructor | inversion 1; reflexivity].
  - split.
    + destruct (f a) as [b|] eqn:Eb; simpl; [|discriminate].
      destruct (result_mapM f l) as [bs'|] eqn:El; simpl; [|discriminate].
      intros [= <-]; constructor; [exact Eb | now apply IH].
    + inversion 1 as [|? b ? bs' Hb Hl]; subst.
      rewrite Hb; simpl. apply IH in Hl; rewrite Hl; reflexivity.
Qed.

Lemma one_hot_spec (k c : N) row :
  keras.one_hot k c = Ok row <-> c < k /\
    row = replicate (N.to_nat c) (Fin 0) ++ Fin 1 ::
          replicate (N.to_nat k - S (N.to_nat c)) (Fin 0).
Proof.
  unfold keras.one_hot; destruct (N.ltb_spec c k) as [Hlt|Hge].
  - assert (E : <[N.to_nat c:=Fin 1]> (replicate (N.to_nat k) (Fin 0))
              = replicate (N.to_nat c) (Fin 0) ++ Fin 1 ::
                replicate (N.to_nat k - S (N.to_nat c)) (Fin 0)).
    { replace (N.to_nat k) with (N.to_nat c + S (N.to_nat k - S (N.to_nat c)))%nat
        at 1 by lia.
      rewrite replicate_add; simpl.
      rewrite insert_app_r_alt by (rewrite length_replicate; lia).
      rewrite length_replicate, Nat.sub_diag; reflexivity. }
    rewrite E; split; [intros [= <-]; auto | intros [_ ->]; reflexivity].
  - split; [discriminate | intros [? _]; lia].
Qed.

Lemma one_hot_row (k c : N) row :
  keras.one_hot k c = Ok row -> is_one_hot (N.to_nat k) c row.
Proof.
  intros [Hlt ->]%one_hot_spec; split.
  - rewrite length_app; simpl; rewrite !length_replicate; lia.
  - intros j Hj; destruct (decide (j = N.to_nat c)) as [-> | Hne].
    + rewrite lookup_app_r by (rewrite length_replicate; lia).
      rewrite length_replicate, Nat.sub_diag; reflexivity.
    + destruct (Nat.lt_ge_cases j (N.to_nat c)) as [Hl|Hg].
      * rewrite lookup_app_l by (rewrite length_replicate; lia).
        apply lookup_replicate_2; lia.
      * rewrite lookup_app_r by (rewrite length_replicate; lia).
        rewrite length_replicate.
        destruct (j - N.to_nat c)%nat as [|d] eqn:Ed; [lia|]; simpl.
        apply lookup_replicate_2; lia.
Qed.

Lemma to_categorical_rows y k Y :
  k <> 0 ->
  keras.to_categorical y k = Ok Y <-> Forall2 (fun c row => keras.one_hot k c = Ok row) y Y.
Proof.
  intros Hk; unfold keras.to_categorical.
  destruct (N.eqb_spec k 0) as [|_]; [contradiction|]; simpl.
  apply result_mapM_Forall2.
Qed.

Lemma to_categorical_returns y k :
  k <> 0 -> Forall (fun c => c < k) y -> exists Y, keras.to_categorical y k = Ok Y.
Proof.
  intros Hk Hy.
  enough (exists Y, Forall2 (fun c row => keras.one_hot k c = Ok row) y Y) as [Y HY]
    by (exists Y; now apply to_categorical_rows).
  induction Hy as [|c y Hc _ [Y IH]]; [exists []; constructor|].
  eexists (_ :: Y); constructor; [|exact IH].
  apply one_hot_spec; split; [exact Hc | reflexivity].
Qed.

Lemma to_categorical_raises y k :
  k <> 0 -> ~ Forall (fun c => c < k) y -> keras.to_categorical y k = Raise IndexError.
Proof.
  intros Hk Hy; unfold keras.to_categorical.
  destruct (N.eqb_spec k 0) as [|_]; [contradiction|]; simpl.
  induction y as [|c y IH]; [destruct Hy; constructor|]; simpl.
  unfold keras.one_hot at 1; destruct (N.ltb_spec c k) as [Hlt|Hge]; [|reflexivity].
  simpl; rewrite IH; [reflexivity|].
  intros H; apply Hy; constructor; assumption.
Qed.

Lemma scan_zeros mp best i n l :
  isnan mp = false -> fle (Fin 0) mp = true ->
  np.argmax_scan mp best i (replicate n (Fin 0) ++ l)
  = np.argmax_scan mp best (i + n) l.
Proof.
  intros Hn Hle; revert i; induction n as [|n IH]; intros i.
  - now rewrite Nat.add_0_r.
  - cbn [replicate app np.argmax_scan].
    rewrite Hn, Hle, IH; f_equal; lia.
Qed.

Lemma scan_no_nan_bound mp best i l :
  (best < i)%nat -> (np.argmax_scan mp best i l < i + length l)%nat.
Proof.
  revert mp best i; induction l as [|x l IH]; intros mp best i Hb; simpl; [lia|].
  destruct (isnan mp); [lia|].
  destruct (fle x mp).
  - specialize (IH mp best (S i)); lia.
  - specialize (IH x i (S i)); lia.
Qed.

Lemma argmax_bound v i : np.argmax v = Ok i -> (i < length v)%nat.
Proof.
  destruct v as [|x l]; [discriminate|]; intros [= <-]; simpl.
  pose proof (scan_no_nan_bound x 0 1 l); lia.
Qed.

Lemma argmax_returns v : v <> [] -> exists i, np.argmax v = Ok i.
Proof. destruct v; [congruence | simpl; eauto]. Qed.

Lemma argmax_one_hot (k c : N) row :
  keras.one_hot k c = Ok row -> np.argmax row = Ok (N.to_nat c).
Proof.
  intros [Hlt ->]%one_hot_spec.
  destruct (N.to_nat c) as [|c'] eqn:Ec; simpl.
  - rewrite <- (app_nil_r (replicate _ _)), scan_zeros by reflexivity.
    reflexivity.
  - rewrite scan_zeros by reflexivity; simpl.
    rewrite <- (app_nil_r (replicate _ _)), scan_zeros by reflexivity.
    reflexivity.
Qed.

Lemma argmax_axis1_returns (a : fmatrix) :
  Forall (fun row => row <> []) a -> exists l, np.argmax_axis1 a = Ok l.
Proof.
  intros Ha; unfold np.argmax_axis1.
  induction Ha as [|row a Hrow _ [l IH]]; [exists []; reflexivity|]; simpl.
  destruct (argmax_returns row Hrow) as [i ->]; rewrite IH; simpl; eauto.
Qed.

(** *** The monad *)

Lemma extend_nil w : extend w [] = w.
Proof. destruct w; unfold extend; simpl; now rewrite app_nil_r. Qed.

Lemma extend_extend w l1 l2 : extend (extend w l1) l2 = extend w (l1 ++ l2).
Proof. unfold extend; simpl; now rewrite app_assoc. Qed.

Lemma run_bind {A B} (m : Py A) (f : A -> Py B) w :
  (m ≫= f) w = match m w with (Ok a, w') => f a w' | (Raise e, w') => (Raise e, w') end.
Proof. reflexivity. Qed.

Lemma run_bind_ok {A B} (m : Py A) (f : A -> Py B) w a w' :
  m w = (Ok a, w') -> (m ≫= f) w = f a w'.
Proof. intros H; rewrite run_bind, H; reflexivity. Qed.

Lemma run_emit_all es w : emit_all es w = (Ok tt, extend w es).
Proof.
  revert w; induction es as [|e es IH]; intros w; simpl.
  - now rewrite extend_nil.
  - unfold emit_all; fold emit_all. rewrite run_bind; unfold emit at 1.
    rewrite IH, extend_extend; reflexivity.
Qed.

Lemma run_assign {A} name (m : Py A) w a w' :
  m w = (Ok a, w') -> (name ::= m) w = (Ok a, extend w' [Assign name]).
Proof.
  intros H; unfold assign, assign_all.
  rewrite (run_bind_ok _ _ _ _ _ H), run_bind, run_emit_all; reflexivity.
Qed.

Section Appends.
Context (P : event -> bool).

Lemma appends_ret {A} (a : A) : appends P (mret a).
Proof. intros w; exists []; split; [symmetry; apply extend_nil | constructor]. Qed.

Lemma appends_lift {A} (r : result A) : appends P (lift r).
Proof. intros w; exists []; split; [symmetry; apply extend_nil | constructor]. Qed.

Lemma appends_get_fits : appends P get_fits.
Proof. intros w; exists []; split; [symmetry; apply extend_nil | constructor]. Qed.

Lemma appends_emit e : P e = true -> appends P (emit e).
Proof. intros He w; exists [e]; split; [reflexivity | repeat constructor; exact He]. Qed.

Lemma appends_bind {A B} (m : Py A) (f : A -> Py B) :
  appends P m -> (forall a, appends P (f a)) -> appends P (m ≫= f).
Proof.
  intros Hm Hf w; destruct (Hm w) as (l & Hw & Hl).
  rewrite run_bind; destruct (m w) as [[a|e] w']; simpl in Hw; subst w'.
  - destruct (Hf a (extend w l)) as (l' & Hw' & Hl').
    exists (l ++ l'); rewrite Hw', extend_extend; split; [reflexivity|].
    now apply Forall_app.
  - exists l; auto.
Qed.

Lemma appends_emit_all es :
  Forall (fun e => P e = true) es -> appends P (emit_all es).
Proof. intros H w; exists es; rewrite run_emit_all; auto. Qed.

Lemma appends_assign {A} name (m : Py A) :
  P (Assign name) = true -> appends P m -> appends P (name ::= m).
Proof.
  intros Hn Hm; unfold assign, assign_all.
  apply appends_bind; [exact Hm | intros a].
  apply appends_bind; [|intros; apply appends_ret].
  apply appends_emit_all; repeat constructor; exact Hn.
Qed.

Lemma appends_for {A} (l : list A) (body : A -> Py unit) :
  (forall a, appends P (body a)) -> appends P (for_ l body).
Proof.
  intros Hb; induction l as [|a l IH]; simpl.
  - apply appends_ret.
  - apply appends_bind; [apply Hb | intros _; exact IH].
Qed.
End Appends.

(** *** Shapes and what the model accepts *)

Lemma forallb_Forall {A} (f : A -> bool) l :
  forallb f l = true <-> Forall (fun x => f x = true) l.
Proof.
  induction l as [|a l IH]; simpl; [split; [constructor | reflexivity]|].
  rewrite andb_true_iff, IH, Forall_cons; reflexivity.
Qed.

Lemma forallb_map_ext {A B} (f : B -> bool) (g : A -> bool) (h : A -> B) l :
  (forall a, f (h a) = g a) -> forallb f (map h l) = forallb g l.
Proof. intros H; induction l as [|a l IH]; simpl; [reflexivity | now rewrite H, IH]. Qed.

Lemma has_shape_map {A B} (f : A -> B) s (img : list (list (list A))) :
  np.has_shape s (map (map (map f)) img) = np.has_shape s img.
Proof.
  destruct s as [|h [|w [|c [|]]]]; try reflexivity.
  unfold np.has_shape; rewrite length_map; f_equal.
  apply forallb_map_ext; intros row; rewrite length_map; f_equal.
  apply forallb_map_ext; intros px; now rewrite length_map.
Qed.

Lemma shaped_divide s a m :
  forallb (np.has_shape s) (np.divide a m) = forallb (np.has_shape s) a.
Proof. apply forallb_map_ext; intros img; apply has_shape_map. Qed.

Lemma feed_ok m x :
  keras.feed m x = Ok tt <->
  x <> [] /\ Forall (fun img => np.has_shape (keras.m_input_shape m) img = true) x.
Proof.
  unfold keras.feed; destruct x as [|img x];
    [split; [discriminate | intros [[] _]; reflexivity]|].
  rewrite <- forallb_Forall.
  destruct (forallb (np.has_shape (keras.m_input_shape m)) (img :: x)).
  - split; [intros _; split; [discriminate | reflexivity] | reflexivity].
  - split; [discriminate | intros [_ H]; discriminate H].
Qed.

Lemma feed_divide m a mx :
  keras.feed m (np.divide a mx) = Ok tt <->
  a <> [] /\ Forall (fun img => np.has_shape (keras.m_input_shape m) img = true) a.
Proof.
  rewrite feed_ok, <- !forallb_Forall, shaped_divide.
  destruct a; [split; intros [[] _]; reflexivity|].
  split; intros [_ H]; (split; [discriminate | exact H]).
Qed.

(** The only errors of [feed]. *)
Lemma feed_error m x e :
  keras.feed m x = Raise e ->
  (e = ValueError /\ x = []) \/
  (e = InvalidArgumentError /\ x <> [] /\
   ~ Forall (fun img => np.has_shape (keras.m_input_shape m) img = true) x).
Proof.
  unfold keras.feed; destruct x as [|img x]; [intros [= <-]; now left|].
  rewrite <- forallb_Forall.
  destruct (forallb (np.has_shape (keras.m_input_shape m)) (img :: x));
    [discriminate | intros [= <-]; right].
  split; [reflexivity|]; split; [discriminate | discriminate].
Qed.

Lemma vgg_units : keras.units vgg = Ok 10%nat.
Proof. reflexivity. Qed.

Lemma check_data_ok x y :
  keras.check_data vgg x y = Ok tt <->
  length x = length y /\ keras.feed vgg x = Ok tt /\
  Forall (fun row => length row = 10%nat) y.
Proof.
  unfold keras.check_data; rewrite vgg_units.
  destruct (Nat.eqb_spec (length x) (length y)) as [Hlen|Hlen]; cbn [negb];
    [|split; [discriminate | intros [? _]; contradiction]].
  destruct (keras.feed vgg x) as [[]|e]; cbn [result_bind];
    [|split; [discriminate | intros (_ & H & _); discriminate H]].
  assert (Hw : forallb (fun row : list float => (length row =? 10)%nat) y = true
               <-> Forall (fun row => length row = 10%nat) y).
  { rewrite forallb_Forall; apply Forall_iff; intros row; apply Nat.eqb_eq. }
  destruct (forallb _ y); [|split; [discriminate | intros (_ & _ & H%Hw); discriminate H]].
  split; [intros _; repeat split; [exact Hlen | now apply Hw] | reflexivity].
Qed.

Lemma check_data_feed x y : keras.check_data vgg x y = Ok tt -> keras.feed vgg x = Ok tt.
Proof. intros H%check_data_ok; tauto. Qed.

Lemma one_hot_width k c row : keras.one_hot k c = Ok row -> length row = N.to_nat k.
Proof. intros H%one_hot_row; exact (proj1 H). Qed.

Lemma to_categorical_width y Y :
  keras.to_categorical y 10 = Ok Y ->
  length Y = length y /\ Forall (fun row => length row = 10%nat) Y.
Proof.
  intros H%to_categorical_rows; [|discriminate]; split.
  - symmetry; eapply Forall2_length; exact H.
  - induction H as [|c row y Y Hrow _ IH]; constructor; [|exact IH].
    exact (one_hot_width 10 c row Hrow).
Qed.

(** An image of the declared shape, taken alone, squeezes to itself. *)
Lemma squeeze_image (img : u8image) :
  np.has_shape [32; 32; 3] img = true ->
  np.squeeze (np.expand_dims0 img)
  = {| nd_shape := [32; 32; 3]; nd_data := concat (concat img) |}.
Proof.
  unfold np.has_shape; intros (Hh%N.eqb_eq & Hrows)%andb_true_iff.
  destruct img as [|row img]; [discriminate Hh|].
  cbn [forallb] in Hrows.
  apply andb_true_iff in Hrows as [(Hw%N.eqb_eq & Hpx)%andb_true_iff _].
  destruct row as [|px row]; [discriminate Hw|].
  cbn [forallb] in Hpx; apply andb_true_iff in Hpx as [Hc%N.eqb_eq _].
  unfold np.squeeze, np.expand_dims0, np.shape, np.ravel.
  cbn [hd concat]; rewrite Hh, Hw, Hc, !app_nil_r; reflexivity.
Qed.

Lemma flat_image_shape p : np.has_shape [32; 32; 3] (flat_image p) = true.
Proof. reflexivity. Qed.

Section Display.
Variable forward : list keras.fit_args -> fimage -> nat -> float.

Lemma appends_predict P model x :
  (forall x, P (Predict x) = true) -> appends P (predict forward model x).
Proof.
  intros HP; unfold predict.
  apply appends_bind; [apply appends_lift | intros out].
  apply appends_bind; [apply appends_emit, HP | intros _].
  apply appends_bind; [apply appends_lift | intros _].
  apply appends_bind; [apply appends_get_fits | intros; apply appends_ret].
Qed.

Lemma appends_plt_subplot P nrows ncols index :
  (forall c, P (Plt c) = true) -> appends P (plt_subplot nrows ncols index).
Proof.
  intros HP; unfold plt_subplot; destruct (_ && _);
    [apply appends_emit, HP | apply appends_lift].
Qed.

Lemma appends_plt_imshow P X :
  (forall c, P (Plt c) = true) -> appends P (plt_imshow X).
Proof.
  intros HP; unfold plt_imshow.
  destruct (nd_shape X) as [|? [|? [|c [|]]]]; try apply appends_lift;
    [apply appends_emit, HP|].
  destruct (_ || _); [apply appends_emit, HP | apply appends_lift].
Qed.

Ltac appends_display :=
  repeat first
    [ apply appends_predict; intros; reflexivity
    | apply appends_plt_subplot; intros; reflexivity
    | apply appends_plt_imshow; intros; reflexivity
    | apply appends_bind; [|intros ?]
    | apply appends_assign; [reflexivity|]
    | apply appends_emit_all; repeat constructor
    | apply appends_emit; reflexivity
    | apply appends_lift
    | apply appends_ret
    | apply appends_get_fits ].

Lemma show_sample_appends model x_test x_test_norm y_test labels nrows i n :
  appends display_event
    (show_sample forward model x_test x_test_norm y_test labels nrows i n).
Proof. unfold show_sample, plt; appends_display. Qed.

Lemma cell_20_appends model x_test x_test_norm y_test labels :
  appends display_event (cell_20 forward model x_test x_test_norm y_test labels).
Proof.
  unfold cell_20, plt.
  apply appends_bind; [apply appends_assign; [reflexivity | apply appends_ret]|].
  intros samples.
  apply appends_bind; [apply appends_emit; reflexivity | intros _].
  apply appends_for; intros [i n]; apply show_sample_appends.
Qed.

(** *** A display that returns has shown an image *)

Lemma shows_bind_l {A B} P (m : Py A) (f : A -> Py B) :
  shows m -> (forall a, appends P (f a)) -> shows (m ≫= f).
Proof.
  intros Hm Hf w b w' Hrun; rewrite run_bind in Hrun.
  destruct (m w) as [[a|e] w1] eqn:Em; [|discriminate].
  destruct (Hm w a w1 Em) as (l1 & X & -> & HX).
  destruct (Hf a (extend w l1)) as (l2 & Hw' & _).
  rewrite Hrun in Hw'; cbn [snd] in Hw'; subst w'.
  exists (l1 ++ l2), X; rewrite extend_extend; split; [reflexivity|].
  apply elem_of_app; now left.
Qed.

Lemma shows_bind_r {A B} P (m : Py A) (f : A -> Py B) :
  appends P m -> (forall a, shows (f a)) -> shows (m ≫= f).
Proof.
  intros Hm Hf w b w' Hrun; rewrite run_bind in Hrun.
  destruct (Hm w) as (l1 & Hw1 & _).
  destruct (m w) as [[a|e] w1] eqn:Em; [|discriminate].
  cbn [snd] in Hw1; subst w1.
  destruct (Hf a _ b w' Hrun) as (l2 & X & -> & HX).
  exists (l1 ++ l2), X; rewrite extend_extend; split; [reflexivity|].
  apply elem_of_app; now right.
Qed.

Lemma shows_plt_imshow X : shows (plt_imshow X).
Proof.
  intros w a w'; unfold plt_imshow.
  destruct (nd_shape X) as [|? [|? [|c [|]]]]; try discriminate.
  - intros [= <- <-]; exists [Plt (imshow X)], X; split; [reflexivity | left].
  - destruct (_ || _); [|discriminate].
    intros [= <- <-]; exists [Plt (imshow X)], X; split; [reflexivity | left].
Qed.

Lemma shows_show_sample model x_test x_test_norm y_test labels nrows i n :
  shows (show_sample forward model x_test x_test_norm y_test labels nrows i n).
Proof.
  unfold show_sample, plt.
  apply (shows_bind_r display_event); [appends_display | intros _].
  apply (shows_bind_r display_event); [appends_display | intros img_norm].
  apply (shows_bind_r display_event); [appends_display | intros img].
  apply (shows_bind_r display_event); [appends_display | intros _].
  apply (shows_bind_l display_event); [apply shows_plt_imshow | intros _].
  appends_display.
Qed.

Lemma shows_for_cons {A} P (a : A) l (body : A -> Py unit) :
  shows (body a) -> (forall a', appends P (body a')) -> shows (for_ (a :: l) body).
Proof.
  intros Ha Hb; cbn [for_].
  apply (shows_bind_l P); [exact Ha | intros _; now apply appends_for].
Qed.

Lemma shows_cell_20 model x_test x_test_norm y_test labels :
  shows (cell_20 forward model x_test x_test_norm y_test labels).
Proof.
  intros w a w' Hrun; unfold cell_20 in Hrun.
  erewrite run_bind_ok in Hrun by (apply run_assign; reflexivity).
  unfold plt at 1 in Hrun.
  eapply (shows_bind_r display_event) in Hrun as (l & X & -> & HX).
  - exists ([Assign "samples"] ++ l), X; rewrite extend_extend.
    split; [reflexivity | right; exact HX].
  - intros w0; exists [Plt (subplots (N.of_nat 8 / 2) 2)]; split; [reflexivity|].
    repeat constructor.
  - intros _.
    apply (shows_for_cons display_event (0%nat, 4));
      [apply shows_show_sample | intros [i' n']; apply show_sample_appends].
Qed.

End Display.

Lemma extend_inj w l1 l2 : extend w l1 = extend w l2 -> l1 = l2.
Proof.
  intros H; apply (f_equal w_log) in H; cbn [extend w_log] in H.
  exact (app_inv_head _ _ _ H).
Qed.

(** The events of a cell 20 that returned. *)
Lemma cell_20_shown forward model x_test x_test_norm y_test labels w l :
  cell_20 forward model x_test x_test_norm y_test labels w = (Ok tt, extend w l) ->
  exists X, Plt (imshow X) ∈ l.
Proof.
  intros Hrun; destruct (shows_cell_20 forward _ _ _ _ _ _ _ _ Hrun)
    as (l' & X & Hl & HX).
  apply extend_inj in Hl as ->; eauto.
Qed.
Lemma getitem_lookup {A} (l : list A) i a : getitem l i = Ok a <-> l !! i = Some a.
Proof. unfold getitem; destruct (l !! i); split; congruence. Qed.

Lemma divide_length a m : length (np.divide a m) = length a.
Proof. unfold np.divide; apply length_map. Qed.

Lemma lookup_map {A B} (f : A -> B) (l : list A) i :
  map f l !! i = option_map f (l !! i).
Proof.
  revert i; induction l as [|a l IH]; intros [|i]; simpl; auto.
Qed.

Lemma vgg_output_shape :
  keras.output_shape (keras.m_input_shape vgg) (keras.m_layers vgg) = Ok [10].
Proof. reflexivity. Qed.

Lemma feed_one (imgn : fimage) :
  np.has_shape [32; 32; 3] imgn = true -> keras.feed vgg (np.expand_dims0 imgn) = Ok tt.
Proof.
  intros H; apply feed_ok; split; [discriminate|].
  repeat constructor; exact H.
Qed.

Lemma subplot_index nrows i :
  N.of_nat i < nrows * 2 ->
  (1 <=? N.of_nat i + 1) && (N.of_nat i + 1 <=? nrows * 2) = true.
Proof.
  intros H; apply andb_true_iff; split; apply N.leb_le; lia.
Qed.

(** One pass of the loop of cell 20 on a sample of the declared shape. *)
Lemma show_sample_run forward (x_test : u8images) (x_test_norm : fimages)
    (y_test : fmatrix) labels nrows i n w
    (imgn : fimage) (img : u8image) row label actual pl predicted :
  N.of_nat i < nrows * 2 ->
  getitem x_test_norm (N.to_nat n) = Ok imgn ->
  getitem x_test (N.to_nat n) = Ok img ->
  np.has_shape [32; 32; 3] imgn = true ->
  np.has_shape [32; 32; 3] img = true ->
  getitem y_test (N.to_nat n) = Ok row ->
  np.argmax row = Ok label ->
  np.argmax (map (forward (w_fits w) imgn) (seq 0 10)) = Ok pl ->
  getitem labels label = Ok actual ->
  getitem labels pl = Ok predicted ->
  show_sample forward vgg x_test x_test_norm y_test labels nrows i n w
  = (Ok tt,
     extend w
       [Assign "i"; Assign "n"; Assign "img_norm"; Assign "img";
        Plt (subplot nrows 2 (N.of_nat i + 1));
        Plt (imshow {| nd_shape := [32; 32; 3]; nd_data := concat (concat img) |});
        Plt (axis "off"); Assign "label"; Predict [imgn];
        Assign "predicted_label";
        Plt (title ("Actual = " +:+ actual +:+ ", Predicted = " +:+ predicted))]).
Proof.
  intros Hi Hxn Hx Hsn Hs Hy Hrow Hp Ha Hpred.
  unfold show_sample, predict, np.argmax_flat, plt_subplot, plt_imshow.
  rewrite (subplot_index _ _ Hi), vgg_units.
  cbv [assign assign_all plt lift emit emit_all get_fits mbind mret Py_bind Py_ret map].
  rewrite Hxn, Hx, Hy, Hrow, (squeeze_image _ Hs), (feed_one _ Hsn).
  cbn [extend w_fits w_log w_compiled nd_shape N.eqb Pos.eqb orb np.expand_dims0].
  match goal with
  | |- context [np.argmax ?v] =>
      replace (np.argmax v) with (Ok pl : result nat)
        by (rewrite <- Hp; cbn [concat]; rewrite app_nil_r; reflexivity)
  end.
  rewrite Ha, Hpred, !extend_extend; reflexivity.
Qed.

(** A sample of the declared shape that the test set holds is displayed,
    titled with the name of its original label and the name of a
    predicted class. *)
Lemma show_sample_labelled forward (x_test : u8images) mx (y : list N) Y
    (labels : list string) nrows i n w img c :
  keras.to_categorical y 10 = Ok Y ->
  N.of_nat i < nrows * 2 ->
  x_test !! N.to_nat n = Some img ->
  np.has_shape [32; 32; 3] img = true ->
  y !! N.to_nat n = Some c ->
  length labels = 10%nat ->
  let imgn := map (map (map (fun p => np.true_divide p mx))) img in
  exists actual pl predicted,
    labels !! N.to_nat c = Some actual /\
    np.argmax (map (forward (w_fits w) imgn) (seq 0 10)) = Ok pl /\
    labels !! pl = Some predicted /\
    show_sample forward vgg x_test (np.divide x_test mx) Y labels nrows i n w
    = (Ok tt,
       extend w
         [Assign "i"; Assign "n"; Assign "img_norm"; Assign "img";
          Plt (subplot nrows 2 (N.of_nat i + 1));
          Plt (imshow {| nd_shape := [32; 32; 3]; nd_data := concat (concat img) |});
          Plt (axis "off"); Assign "label"; Predict [imgn];
          Assign "predicted_label";
          Plt (title ("Actual = " +:+ actual +:+ ", Predicted = " +:+ predicted))]).
Proof.
  intros HY Hi Himg Hs Hc Hlab imgn.
  apply to_categorical_rows in HY; [|discriminate].
  destruct (Forall2_lookup_l _ _ _ _ _ HY Hc) as (row & Hrow & Hhot).
  pose proof Hhot as [Hlt _]%one_hot_spec.
  assert (Himgn : np.divide x_test mx !! N.to_nat n = Some imgn)
    by exact (eq_trans (lookup_map _ x_test _) (f_equal (option_map _) Himg)).
  destruct (lookup_lt_is_Some_2 labels (N.to_nat c)) as [actual Hact]; [lia|].
  destruct (argmax_returns (map (forward (w_fits w) imgn) (seq 0 10)))
    as [pl Hpl]; [discriminate|].
  pose proof (argmax_bound _ _ Hpl) as Hb; rewrite length_map, length_seq in Hb.
  destruct (lookup_lt_is_Some_2 labels pl) as [predicted Hpred]; [lia|].
  exists actual, pl, predicted; repeat split; try assumption.
  apply show_sample_run with (row := row) (label := N.to_nat c) (pl := pl);
    try (apply getitem_lookup; assumption); try assumption.
  - unfold imgn; rewrite has_shape_map; exact Hs.
  - eapply argmax_one_hot; eassumption.
Qed.

Lemma for_returns {A} (P : A -> Prop) (l : list A) (body : A -> Py unit) :
  (forall a w, P a -> exists l', body a w = (Ok tt, extend w l')) ->
  Forall P l ->
  forall w, exists l', for_ l body w = (Ok tt, extend w l').
Proof.
  intros Hb Hl; induction Hl as [|a l Ha _ IH]; intros w; simpl.
  - exists []; now rewrite extend_nil.
  - destruct (Hb a w Ha) as (l1 & H1).
    rewrite (run_bind_ok _ _ _ _ _ H1).
    destruct (IH (extend w l1)) as (l2 & H2).
    exists (l1 ++ l2); now rewrite H2, extend_extend.
Qed.

(** Cell 20 returns when the test set holds its samples and they have the
    declared shape. *)
Lemma cell_20_returns forward (x_test : u8images) mx (y : list N) Y labels w :
  keras.to_categorical y 10 = Ok Y ->
  Forall (fun img => np.has_shape [32; 32; 3] img = true) x_test ->
  (N.to_nat 8953 < length x_test)%nat ->
  (N.to_nat 8953 < length y)%nat ->
  length labels = 10%nat ->
  exists l, cell_20 forward vgg x_test (np.divide x_test mx) Y labels w
            = (Ok tt, extend w l).
Proof.
  intros HY Hs Hx Hy Hlab; unfold cell_20.
  erewrite run_bind_ok by (apply run_assign; reflexivity).
  unfold plt at 1; erewrite run_bind_ok by reflexivity.
  match goal with
  | |- context [for_ ?l ?body ?w0] =>
      destruct (for_returns
                  (fun p : nat * N => (p.1 < 8)%nat /\ (N.to_nat p.2 <= N.to_nat 8953)%nat)
                  l body) with (w := w0) as [l' Hl]
  end.
  - intros [i n] w' [Hi Hle]; cbn [fst snd] in Hi, Hle.
    destruct (lookup_lt_is_Some_2 y (N.to_nat n)) as [c Hc];
      [exact (Nat.le_lt_trans _ _ _ Hle Hy)|].
    destruct (lookup_lt_is_Some_2 x_test (N.to_nat n)) as [img Himg];
      [exact (Nat.le_lt_trans _ _ _ Hle Hx)|].
    assert (Hsi : np.has_shape [32; 32; 3] img = true).
    { rewrite Forall_forall in Hs; eapply Hs, list_elem_of_lookup_2; exact Himg. }
    destruct (show_sample_labelled forward x_test mx y Y labels
                (N.of_nat (length [4; 83; 298; 1045; 3751; 5555; 7112; 8953]) / 2)
                i n w' img c HY ltac:(change (N.of_nat i < 8); lia) Himg Hsi Hc Hlab)
      as (? & ? & ? & _ & _ & _ & Hrun).
    eexists; apply Hrun.
  - cbv [enumerate imap].
    repeat (apply Forall_cons; split; [simpl; lia|]); apply Forall_nil; exact I.
  - eexists; rewrite Hl, !extend_extend; reflexivity.
Qed.

Lemma predict_rows {T} (forward : T -> fimage -> nat -> float) fits (x : fimages) :
  Forall (fun row => length row = 10%nat)
         (map (fun img => map (forward fits img) (seq 0 10)) x).
Proof.
  apply Forall_forall; intros row (img & <- & _)%list_elem_of_In%in_map_iff.
  now rewrite length_map, length_seq.
Qed.

(** Cell 18 on images the model accepts, and on images it refuses. *)
Lemma cell_18_returns forward x_test_norm w :
  keras.feed vgg x_test_norm = Ok tt ->
  exists preds,
    np.argmax_axis1 (map (fun img => map (forward (w_fits w) img) (seq 0 10)) x_test_norm)
      = Ok preds /\
    cell_18 forward vgg x_test_norm w
    = (Ok preds,
       extend w [Predict x_test_norm; Assign "all_predictions"; Print [IIndices preds]]).
Proof.
  intros Hfeed.
  destruct (argmax_axis1_returns
              (map (fun img => map (forward (w_fits w) img) (seq 0 10)) x_test_norm))
    as [preds Hp].
  { apply Forall_forall; intros row (img & <- & _)%list_elem_of_In%in_map_iff; discriminate. }
  exists preds; split; [exact Hp|].
  unfold cell_18, predict; rewrite vgg_units.
  cbv [assign assign_all print lift emit emit_all get_fits mbind mret Py_bind Py_ret].
  rewrite Hfeed; cbn [extend w_fits w_log w_compiled].
  rewrite Hp; cbn [map]; rewrite !extend_extend; reflexivity.
Qed.

Lemma cell_18_raises forward x_test_norm w e :
  keras.feed vgg x_test_norm = Raise e ->
  cell_18 forward vgg x_test_norm w = (Raise e, extend w [Predict x_test_norm]).
Proof.
  intros Hfeed; unfold cell_18, predict; rewrite vgg_units.
  cbv [assign assign_all print lift emit emit_all get_fits mbind mret Py_bind Py_ret].
  rewrite Hfeed; reflexivity.
Qed.


(** Symbolic execution of the notebook on an arbitrary data set.  [E] is
    [run = notebook ... fresh]; the tactic leaves one goal per way the run
    can end, from the last cell back to the first: the notebook finishes;
    cell 20 raises (after logging display events [l] only); [fit] refuses
    the validation data, or the training data; [to_categorical] raises on
    the test labels, or on the training labels; [np.max] raises. *)
Ltac run_cells E :=
  cbv -[np.max np.divide keras.to_categorical keras.check_data
        cell_18 cell_20 cell_21] in E.

Ltac run_display E :=
  match type of E with context [cell_20 ?f ?M ?xt ?xn ?Y ?L ?W] =>
    change M with vgg in E;
    let l := fresh "l" in let Hw := fresh "Hw" in
    let Hl := fresh "Hl" in let E20 := fresh "E20" in
    let w' := fresh "w'" in
    destruct (cell_20_appends f vgg xt xn Y L W) as (l & Hw & Hl);
    destruct (cell_20 f vgg xt xn Y L W) as [[[]|?] w'] eqn:E20;
    cbn [snd] in Hw; subst w'
  end;
  [ cbv [cell_21 save shell emit mbind Py_bind extend w_log w_compiled w_fits] in E;
    match type of E with context [(?A ++ [?s]) ++ [?t]] =>
      replace ((A ++ [s]) ++ [t]) with (A ++ [s; t]) in E
        by (exact (app_assoc A [s] [t]))
    end
  | cbv [extend w_log w_compiled w_fits] in E ].

Ltac run_notebook E :=
  unfold notebook in E; run_cells E;
  match type of E with context [np.max ?x] =>
    let mx := fresh "mx" in let Emax := fresh "Emax" in
    destruct (np.max x) as [mx|?] eqn:Emax
  end;
  [ match type of E with context [keras.to_categorical ?y ?k] =>
      let Ytr := fresh "Ytr" in let Etr := fresh "Etr" in
      destruct (keras.to_categorical y k) as [Ytr|?] eqn:Etr
    end;
    [ match type of E with context [keras.to_categorical ?y ?k] =>
        let Yte := fresh "Yte" in let Ete := fresh "Ete" in
        destruct (keras.to_categorical y k) as [Yte|?] eqn:Ete
      end;
      [ match goal with
        | Etr : keras.to_categorical _ _ = Ok ?Ytr,
          Ete : keras.to_categorical _ _ = Ok ?Yte |- _ =>
            match type of E with context [keras.check_data ?M ?x Ytr] =>
              change M with vgg in E;
              let Efit := fresh "Efit" in
              destruct (keras.check_data vgg x Ytr) as [[]|?] eqn:Efit
            end;
            [ match type of E with context [keras.check_data vgg ?x Yte] =>
                let Eval := fresh "Eval" in
                destruct (keras.check_data vgg x Yte) as [[]|?] eqn:Eval;
                [ match type of E with context [cell_18 ?f ?M x ?W] =>
                    change M with vgg in E;
                    let preds := fresh "preds" in let H18 := fresh "H18" in
                    destruct (cell_18_returns f x W (check_data_feed _ _ Eval))
                      as (preds & _ & H18);
                    rewrite H18 in E; clear H18
                  end;
                  run_cells E; run_display E
                | ]
              end
            | ]
        end
      | ]
    | ]
  | ].

(** *** Reading traces *)

Lemma omap_display {B} (g : event -> option B) l :
  (forall e, display_event e = true -> g e = None) ->
  Forall (fun e => display_event e = true) l -> omap g l = [].
Proof.
  intros Hg Hl; induction Hl as [|e l He _ IH]; [reflexivity|].
  cbn [omap list_omap]; now rewrite (Hg e He).
Qed.

Lemma fit_calls_display l :
  Forall (fun e => display_event e = true) l -> fit_calls l = [].
Proof. apply omap_display; intros []; simpl; congruence. Qed.

Lemma compile_calls_display l :
  Forall (fun e => display_event e = true) l -> compile_calls l = [].
Proof. apply omap_display; intros []; simpl; congruence. Qed.

Lemma evaluate_calls_display l :
  Forall (fun e => display_event e = true) l -> evaluate_calls l = [].
Proof. apply omap_display; intros []; simpl; congruence. Qed.

Lemma assignments_app name l1 l2 :
  assignments name (l1 ++ l2) = (assignments name l1 + assignments name l2)%nat.
Proof. unfold assignments; now rewrite filter_app, length_app. Qed.

Lemma assignments_display name l :
  display_event (Assign name) = false ->
  Forall (fun e => display_event e = true) l -> assignments name l = 0%nat.
Proof.
  intros Hn Hl; unfold assignments; induction Hl as [|e l He _ IH]; [reflexivity|].
  rewrite filter_cons_False; [exact IH|].
  destruct e; simpl; try discriminate.
  intros Heq%bool_decide_eq_true; congruence.
Qed.

Lemma compress_cons2 a b l :
  compress (a :: b :: l)
  = if step_eqb a b then compress (b :: l) else a :: compress (b :: l).
Proof. reflexivity. Qed.

Lemma step_eqb_refl s : step_eqb s s = true.
Proof. destruct s; reflexivity. Qed.

Lemma compress_hd s R : exists T, compress (s :: R) = s :: T.
Proof.
  revert s; induction R as [|b R IH]; intros s; [exists []; reflexivity|].
  rewrite compress_cons2; destruct (step_eqb s b) eqn:Esb; [|eauto].
  destruct s, b; try discriminate; apply IH.
Qed.

(** Steps that follow a trace compress against its last step only. *)
Lemma compress_app L s R :
  last L = Some s -> compress (L ++ R) = compress L ++ tail (compress (s :: R)).
Proof.
  induction L as [|a [|b L'] IH]; intros Hlast.
  - discriminate.
  - injection Hlast as ->; change ([s] ++ R) with (s :: R).
    destruct (compress_hd s R) as [T HT]; rewrite HT; reflexivity.
  - change ((a :: b :: L') ++ R) with (a :: b :: (L' ++ R)).
    rewrite !compress_cons2; change (b :: L' ++ R) with ((b :: L') ++ R).
    rewrite IH by exact Hlast; destruct (step_eqb a b); reflexivity.
Qed.

Lemma compress_replicate s n T :
  tail (compress (s :: replicate n s ++ T)) = tail (compress (s :: T)).
Proof.
  induction n as [|n IH]; [reflexivity|].
  cbn [replicate app]; rewrite compress_cons2, step_eqb_refl; exact IH.
Qed.

Lemma step_of_display l :
  Forall (fun e => display_event e = true) l ->
  exists n, omap step_of l = replicate n SVisualize.
Proof.
  induction 1 as [|e l He _ [n IH]]; [exists 0%nat; reflexivity|].
  cbn [omap list_omap]; rewrite IH.
  destruct e as [| | | | | | | | | | | | | | | |[]| | |]; try discriminate He;
    first [exists n; reflexivity | exists (S n); reflexivity].
Qed.

Lemma step_of_shown l :
  Forall (fun e => display_event e = true) l ->
  (exists X, Plt (imshow X) ∈ l) ->
  exists n, omap step_of l = replicate (S n) SVisualize.
Proof.
  intros Hl [X HX]; destruct (step_of_display l Hl) as [[|n] Hn]; [|eauto].
  assert (Hin : SVisualize ∈ omap step_of l)
    by (apply list_elem_of_omap; exists (Plt (imshow X)); auto).
  rewrite Hn in Hin; inversion Hin.
Qed.

Lemma compress_hd_tail s R : compress (s :: R) = s :: tail (compress (s :: R)).
Proof. destruct (compress_hd s R) as [T ->]; reflexivity. Qed.

(** Display calls after a trace that has evaluated the model: once an
    image is shown the display step is entered, and a [save] after it
    adds the last step. *)
Lemma steps_display L l T :
  last (omap step_of L) = Some SEvaluate ->
  Forall (fun e => display_event e = true) l ->
  (exists X, Plt (imshow X) ∈ l) ->
  steps ((L ++ l) ++ T)
  = steps L ++ SVisualize :: tail (compress (SVisualize :: omap step_of T)).
Proof.
  intros HL Hl Hshown; unfold steps; rewrite <- app_assoc, !omap_app.
  destruct (step_of_shown l Hl Hshown) as [n ->].
  rewrite (compress_app _ _ _ HL); f_equal.
  cbn [replicate app]; rewrite compress_cons2; cbn [step_eqb tail].
  rewrite compress_hd_tail; f_equal; apply compress_replicate.
Qed.

Lemma fit_first_app s l1 l2 :
  fit_first s (l1 ++ l2)
  = fit_first s l1
    && fit_first (s || existsb (fun e => match e with Fit _ => true | _ => false end) l1) l2.
Proof.
  revert s; induction l1 as [|e l1 IH]; intros s; simpl.
  - now rewrite orb_false_r.
  - destruct e; simpl; rewrite ?IH, ?orb_false_r, ?orb_true_r; try reflexivity;
      destruct s; reflexivity.
Qed.

Lemma fit_first_display s l :
  Forall (fun e => display_event e = true) l -> fit_first s l = true.
Proof.
  induction 1 as [|e l He _ IH]; [reflexivity|].
  destruct e; try discriminate He; exact IH.
Qed.

(** What the scan [fit_first] checks. *)
Lemma fit_first_sound s log l1 e l2 :
  fit_first s log = true -> log = l1 ++ e :: l2 ->
  step_of e = Some SEvaluate \/ step_of e = Some SPersist ->
  s = true \/ exists a, Fit a ∈ l1.
Proof.
  intros Hlog ->; revert s Hlog; induction l1 as [|e1 l1 IH]; intros s Hlog He.
  - left; destruct e as [| | | | | | | | | | | | | | | |[]| | |];
      destruct He as [He|He]; try discriminate He;
      simpl in Hlog; apply andb_true_iff in Hlog as [-> _]; reflexivity.
  - assert (Hstep : forall s', fit_first s' (l1 ++ e :: l2) = true ->
                      s' = true \/ exists a, Fit a ∈ e1 :: l1).
    { intros s' H'; destruct (IH s' H' He) as [->|[a Ha]]; [now left|].
      right; exists a; now right. }
    destruct e1; simpl in Hlog;
      try (destruct (Hstep s Hlog) as [->|?]; [now left | now right]).
    + right; eexists; left.
    + apply andb_true_iff in Hlog as [-> _]; now left.
    + apply andb_true_iff in Hlog as [-> _]; now left.
Qed.

Lemma steps_display_end L l :
  last (omap step_of L) = Some SEvaluate ->
  Forall (fun e => display_event e = true) l ->
  steps (L ++ l) = steps L \/ steps (L ++ l) = steps L ++ [SVisualize].
Proof.
  intros HL Hl; unfold steps; rewrite omap_app.
  destruct (step_of_display l Hl) as [[|n] ->].
  - left; now rewrite app_nil_r.
  - right; rewrite (compress_app _ _ _ HL); f_equal.
    cbn [replicate]; rewrite compress_cons2; cbn [step_eqb tail].
    rewrite compress_hd_tail; f_equal.
    rewrite <- (app_nil_r (replicate n SVisualize)); apply compress_replicate.
Qed.

(** On well-formed data neither [max] nor [to_categorical] raises. *)
Lemma well_formed_returns ds :
  well_formed ds ->
  exists mx Ytr Yte,
    np.max (ds_x_train ds) = Ok mx /\
    keras.to_categorical (ds_y_train ds) 10 = Ok Ytr /\
    keras.to_categorical (ds_y_test ds) 10 = Ok Yte.
Proof.
  intros (Hx & Htr & Hte).
  destruct (max_returns _ Hx) as [mx Hmx].
  destruct (to_categorical_returns _ 10 ltac:(discriminate) Htr) as [Ytr HYtr].
  destruct (to_categorical_returns _ 10 ltac:(discriminate) Hte) as [Yte HYte].
  eauto 7.
Qed.

(** Closes the goal of a run that raised although the data is
    well-formed. *)
Ltac raised_on_well_formed H :=
  exfalso; apply well_formed_returns in H as (? & ? & ? & ? & ? & ?);
  cbn [ds_x_train ds_y_train ds_x_test ds_y_test] in *; congruence.

(** On well-formed data of the form of CIFAR-10 with a test image, the
    model accepts the training and the validation data. *)
Lemma cifar_shaped_accepted ds :
  well_formed ds -> cifar_shaped ds -> ds_x_test ds <> [] ->
  exists mx Ytr Yte,
    np.max (ds_x_train ds) = Ok mx /\
    keras.to_categorical (ds_y_train ds) 10 = Ok Ytr /\
    keras.to_categorical (ds_y_test ds) 10 = Ok Yte /\
    keras.check_data vgg (np.divide (ds_x_train ds) mx) Ytr = Ok tt /\
    keras.check_data vgg (np.divide (ds_x_test ds) mx) Yte = Ok tt.
Proof.
  intros Hwf (Hstr & Hste & Hltr & Hlte) Hte.
  destruct (well_formed_returns ds Hwf) as (mx & Ytr & Yte & Hmx & HYtr & HYte).
  destruct (to_categorical_width _ _ HYtr) as [Hntr Hwtr].
  destruct (to_categorical_width _ _ HYte) as [Hnte Hwte].
  exists mx, Ytr, Yte; do 3 (split; [assumption|]).
  assert (Htr : ds_x_train ds <> []).
  { destruct Hwf as [Hpx _]; intros Hnil; apply Hpx; now rewrite Hnil. }
  split; apply check_data_ok; rewrite divide_length, feed_divide; auto with lia.
Qed.

(** Closes the goal of a run in which [fit] raised although the data
    suits the model. *)
Ltac accepted_but_raised Hwf Hs Hne :=
  exfalso;
  destruct (cifar_shaped_accepted _ Hwf Hs Hne) as (? & ? & ? & ? & ? & ? & ? & ?);
  cbn [ds_x_train ds_y_train ds_x_test ds_y_test] in *; congruence.

(** On runnable data, moreover, cell 20 returns. *)
Lemma runnable_returns ds :
  runnable ds ->
  exists mx Ytr Yte,
    np.max (ds_x_train ds) = Ok mx /\
    keras.to_categorical (ds_y_train ds) 10 = Ok Ytr /\
    keras.to_categorical (ds_y_test ds) 10 = Ok Yte /\
    keras.check_data vgg (np.divide (ds_x_train ds) mx) Ytr = Ok tt /\
    keras.check_data vgg (np.divide (ds_x_test ds) mx) Yte = Ok tt /\
    forall forward labels w,
      length labels = 10%nat ->
      exists l, cell_20 forward vgg (ds_x_test ds) (np.divide (ds_x_test ds) mx)
                  Yte labels w = (Ok tt, extend w l).
Proof.
  intros (Hwf & Hshaped & _ & Hn).
  assert (Hte : ds_x_test ds <> []) by (intros Hnil; rewrite Hnil in Hn; cbn in Hn; lia).
  destruct (cifar_shaped_accepted ds Hwf Hshaped Hte)
    as (mx & Ytr & Yte & Hmx & HYtr & HYte & Htrain & Htest).
  exists mx, Ytr, Yte; do 5 (split; [assumption|]).
  destruct Hshaped as (_ & Hste & _ & Hlte).
  intros forward labels w Hlab.
  apply cell_20_returns with (y := ds_y_test ds); auto; lia.
Qed.

(** Close the goal of a run that raised although the data is runnable:
    before cell 20, and in cell 20, whose run is [E20]. *)
Ltac raised_on_runnable H :=
  exfalso; apply runnable_returns in H as (? & ? & ? & ? & ? & ? & ? & ? & _);
  cbn [ds_x_train ds_y_train ds_x_test ds_y_test] in *; congruence.

Ltac display_raised_on_runnable H E20 :=
  exfalso;
  let H20 := fresh in
  apply runnable_returns in H as (? & ? & ? & ? & ? & ? & _ & _ & H20);
  cbn [ds_x_train ds_y_train ds_x_test ds_y_test] in *;
  repeat match goal with
  | Ha : ?t = Ok ?a, Hb : ?t = Ok ?b |- _ =>
      tryif constr_eq a b then fail else
        (let Heq := fresh in assert (Heq : b = a) by congruence; subst b)
  end;
  match type of E20 with
  | cell_20 ?f _ _ _ _ ?L ?W = _ =>
      let l' := fresh "l" in let Hl' := fresh in
      destruct (H20 f L W eq_refl) as [l' Hl'];
      rewrite Hl' in E20; discriminate E20
  end.

Lemma labelled_floats_display l :
  Forall (fun e => display_event e = true) l -> labelled_floats l = [].
Proof. apply omap_display; intros []; simpl; congruence. Qed.

(** *** Cells 4 and 6 *)

Lemma cell_04_run ds w mx :
  np.max (ds_x_train ds) = Ok mx ->
  cell_04 ds w
  = (Ok (ds_x_train ds, ds_y_train ds, ds_x_test ds, ds_y_test ds,
         np.divide (ds_x_train ds) mx, np.divide (ds_x_test ds) mx),
     extend w
       [LoadData; Assign "x_train"; Assign "y_train"; Assign "x_test";
        Assign "y_test"; Divide; Assign "x_train_norm"; Divide;
        Assign "x_test_norm"]).
Proof.
  intros Hmx; unfold cell_04, load_data, ndarray_div, perform.
  cbv [assign assign_all lift emit emit_all mbind mret Py_bind Py_ret map].
  rewrite Hmx, !extend_extend; reflexivity.
Qed.

Lemma cell_04_raises ds w e :
  np.max (ds_x_train ds) = Raise e -> fst (cell_04 ds w) = Raise e.
Proof.
  intros Hmx; unfold cell_04, load_data, ndarray_div, perform.
  cbv [assign assign_all lift emit emit_all mbind mret Py_bind Py_ret map].
  rewrite Hmx; reflexivity.
Qed.

Lemma cell_06_run y_train y_test w Ytr Yte :
  keras.to_categorical y_train 10 = Ok Ytr ->
  keras.to_categorical y_test 10 = Ok Yte ->
  cell_06 10 y_train y_test w
  = (Ok (Ytr, Yte),
     extend w [ToCategorical; Assign "y_train"; ToCategorical; Assign "y_test"]).
Proof.
  intros Htr Hte; unfold cell_06, to_categorical, perform.
  cbv [assign assign_all lift emit emit_all mbind mret Py_bind Py_ret map].
  rewrite Htr, Hte, !extend_extend; reflexivity.
Qed.

Lemma divide_unit a m :
  0 < m -> Forall (fun x => x <= m) (np.ravel a) ->
  Forall in_unit_interval (fravel (np.divide a m)).
Proof.
  intros Hm Ha; rewrite fravel_divide; apply Forall_forall.
  intros x (p & <- & Hp)%list_elem_of_In%in_map_iff.
  apply true_divide_unit; [exact Hm|].
  rewrite Forall_forall in Ha; apply Ha, list_elem_of_In, Hp.
Qed.

Lemma divide_finite a m :
  0 < m -> Forall (fun x => isfinite x = true) (fravel (np.divide a m)).
Proof.
  intros Hm; rewrite fravel_divide; apply Forall_forall.
  intros x (p & <- & _)%list_elem_of_In%in_map_iff.
  now apply true_divide_finite.
Qed.

Lemma max_positive a m p :
  np.max a = Ok m -> p ∈ np.ravel a -> 0 < p -> 0 < m.
Proof.
  intros Hm Hp Hpos; apply max_bound in Hm.
  rewrite Forall_forall in Hm; specialize (Hm p Hp); lia.
Qed.

(** Cell 14 on a model compiled with four metrics and data that suits
    it: the five numbers of the score, and what is printed under which
    label. *)
Lemma cell_14_run measure model x y w c :
  w_compiled w = Some c -> length (keras.c_metrics c) = 4%nat ->
  keras.check_data model x y = Ok tt ->
  exists loss acc auc prec rec,
    map (fun q => measure (w_fits w) q x y) (keras.quantities c)
      = [loss; acc; auc; prec; rec] /\
    cell_14 measure model x y w
    = (Ok (keras.Scores [loss; acc; auc; prec; rec]),
       extend w
         [Evaluate x y; Assign "score";
          Print [IStr "Test loss:"; IFloat loss];
          Print [IStr "Test accuracy:"; IFloat acc];
          Print [IStr "Test AUC:"; IFloat auc];
          Print [IStr "Test Precision:"; IFloat prec];
          Print [IStr "Test Recall:"; IFloat rec]]).
Proof.
  intros Hc Hlen Hdata.
  destruct c as [lo op [|m1 [|m2 [|m3 [|m4 [|]]]]]]; try discriminate Hlen.
  do 5 eexists; split; [reflexivity|].
  unfold cell_14, evaluate, compiled, print.
  cbv [assign assign_all lift emit emit_all get_fits mbind mret Py_bind Py_ret].
  rewrite Hc, Hdata; cbn; rewrite !extend_extend; reflexivity.
Qed.

(** On runnable data the notebook finishes. *)
Lemma runnable_finishes ds forward measure curve :
  runnable ds -> fst (notebook ds forward measure curve fresh) = Ok tt.
Proof.
  destruct ds as [xtr ytr xte yte]; intros H.
  remember (notebook _ forward measure curve fresh) as run eqn:E.
  run_notebook E; subst run; cbn [fst];
    [ reflexivity | display_raised_on_runnable H E20
    | raised_on_runnable H | raised_on_runnable H
    | destruct H as [H _]; raised_on_well_formed H .. ].
Qed.

(** * Properties of the notebook *)

(** C1 (declared model).  Cell 3 sets the input shape (32,32,3) and, for
    that shape and 10 classes, cell 7 builds the model whose layers, from
    its input to its output, are exactly the eighteen of [vgg_layers]:
    Conv 64 3x3 twice, MaxPool 2x2, Conv 96 3x3 twice, MaxPool 2x2, Conv
    192 3x3 twice and 1x1 once, MaxPool 2x2, Conv 224 3x3 twice and 1x1
    once (all 'same', ReLU), Flatten, Dense 1024 ReLU, Dropout 0.5, Dense
    1024 ReLU, Dense 10 softmax. *)
Theorem declared_model_is_the_vgg_stack w :
  fst (cell_03 w) = Ok [32; 32; 3] /\
  fst (cell_07 [32; 32; 3] 10 w)
  = Ok {| keras.m_input_shape := [32; 32; 3];
          keras.m_input_name := "input_images";
          keras.m_layers := vgg_layers |} /\
  length vgg_layers = 18%nat /\
  omap (fun e => match e with CallLayer l => Some l | _ => None end)
       (w_log (snd (cell_07 [32; 32; 3] 10 fresh)))
  = vgg_layers.
Proof. repeat split; reflexivity. Qed.

(** C2 (order of the steps).  In every run, however it ends, the steps
    entered so far are an initial part of load, normalize, one-hot,
    declare, compile, fit, evaluate, visualize, persist, and every
    [evaluate] and [save] comes after a [fit]; a run that finishes went
    through all nine in that order and its last two statements are
    [model.save] and the listing of the saved directory; and the run
    finishes on every data set that is runnable: data of the form of
    CIFAR-10 (images of 32x32x3, one label per image) with a positive
    training pixel, labels below 10 and a test set that holds the samples
    of cell 20. *)
Theorem steps_follow_pipeline ds forward measure curve :
  let run := notebook ds forward measure curve fresh in
  (exists k, steps (w_log (snd run)) = take k pipeline) /\
  (forall l1 e l2, w_log (snd run) = l1 ++ e :: l2 ->
     step_of e = Some SEvaluate \/ step_of e = Some SPersist ->
     exists a, Fit a ∈ l1) /\
  (fst run = Ok tt ->
     steps (w_log (snd run)) = pipeline /\
     exists l, w_log (snd run) = l ++ [Save "my_vgg_model"; Shell "ls my_vgg_model"]) /\
  (runnable ds -> fst run = Ok tt).
Proof.
  destruct ds as [xtr ytr xte yte]; cbv zeta.
  remember (notebook _ forward measure curve fresh) as run eqn:E.
  assert (Hscan : forall log, fit_first false log = true ->
            forall l1 e l2, log = l1 ++ e :: l2 ->
              step_of e = Some SEvaluate \/ step_of e = Some SPersist ->
              exists a, Fit a ∈ l1).
  { intros log Hlog l1 e l2 Heq He.
    destruct (fit_first_sound _ _ _ _ _ Hlog Heq He) as [?|?]; [discriminate|assumption]. }
  run_notebook E; subst run; cbn [fst snd w_log].
  - (* the notebook finished *)
    pose proof (cell_20_shown _ _ _ _ _ _ _ _ E20) as Hshown.
    rewrite steps_display by (reflexivity || assumption).
    split; [exists 9%nat; reflexivity|].
    split; [apply Hscan; rewrite !fit_first_app, (fit_first_display _ l Hl); reflexivity|].
    split; [intros _; split; [reflexivity | eexists; reflexivity] | reflexivity].
  - (* cell 20 raised *)
    split.
    { match goal with
      | |- context [steps (?L ++ l)] =>
          destruct (steps_display_end L l eq_refl Hl) as [-> | ->]
      end; [exists 7%nat | exists 8%nat]; reflexivity. }
    split; [apply Hscan; rewrite !fit_first_app, (fit_first_display _ l Hl); reflexivity|].
    split; [discriminate | intros H; display_raised_on_runnable H E20].
  - (* fit refused the validation data *)
    split; [exists 6%nat; reflexivity|].
    split; [apply Hscan; reflexivity|].
    split; [discriminate | intros H; raised_on_runnable H].
  - (* fit refused the training data *)
    split; [exists 6%nat; reflexivity|].
    split; [apply Hscan; reflexivity|].
    split; [discriminate | intros H; raised_on_runnable H].
  - split; [exists 3%nat; reflexivity|].
    split; [apply Hscan; reflexivity|].
    split; [discriminate | intros [H _]; raised_on_well_formed H].
  - split; [exists 2%nat; reflexivity|].
    split; [apply Hscan; reflexivity|].
    split; [discriminate | intros [H _]; raised_on_well_formed H].
  - split; [exists 1%nat; reflexivity|].
    split; [apply Hscan; reflexivity|].
    split; [discriminate | intros [H _]; raised_on_well_formed H].
Qed.

(** What cell 4 computes when the training images have a positive pixel:
    [x_train / m] and [x_test / m] for [m = x_train.max()]; every number
    of the normalized training images lies in [0,1]; every number of the
    normalized test images is finite and not negative, and lies in [0,1]
    when no test pixel exceeds [m]. *)
Lemma normalize_scales_by_training_max ds w :
  (exists p, p ∈ np.ravel (ds_x_train ds) /\ 0 < p) ->
  exists m,
    np.max (ds_x_train ds) = Ok m /\ 0 < m /\
    fst (cell_04 ds w)
    = Ok (ds_x_train ds, ds_y_train ds, ds_x_test ds, ds_y_test ds,
          np.divide (ds_x_train ds) m, np.divide (ds_x_test ds) m) /\
    Forall in_unit_interval (fravel (np.divide (ds_x_train ds) m)) /\
    Forall (fun x => exists q, x = Fin q /\ (0 <= q)%Q)
           (fravel (np.divide (ds_x_test ds) m)) /\
    (Forall (fun p => p <= m) (np.ravel (ds_x_test ds)) ->
     Forall in_unit_interval (fravel (np.divide (ds_x_test ds) m))).
Proof.
  intros (p & Hp & Hpos).
  destruct (max_returns (ds_x_train ds)) as [m Hm].
  { intros Hnil; rewrite Hnil in Hp; inversion Hp. }
  pose proof (max_positive _ _ _ Hm Hp Hpos) as Hmpos.
  exists m; split; [exact Hm|]; split; [exact Hmpos|].
  split; [rewrite (cell_04_run _ _ _ Hm); reflexivity|].
  split; [apply divide_unit; [exact Hmpos | now apply max_bound]|].
  split; [|now apply divide_unit].
  rewrite fravel_divide; apply Forall_forall.
  intros x (t & <- & _)%list_elem_of_In%in_map_iff.
  destruct m as [|d]; [lia|]; simpl; eexists; split; [reflexivity|].
  unfold Qle; simpl; lia.
Qed.

(** C4 (one-hot encoding).  When every label is a class index below 10,
    cell 6 rebinds [y_train] and [y_test] to matrices with one row per
    label, each row the one-hot vector of its label: ten entries, a 1 at
    the label's index and 0 at the nine others. *)
Theorem labels_become_one_hot_rows y_train y_test w :
  Forall (fun c => c < 10) y_train ->
  Forall (fun c => c < 10) y_test ->
  exists Ytr Yte,
    cell_06 10 y_train y_test w
    = (Ok (Ytr, Yte),
       extend w [ToCategorical; Assign "y_train"; ToCategorical; Assign "y_test"]) /\
    length Ytr = length y_train /\ length Yte = length y_test /\
    Forall2 (is_one_hot 10) y_train Ytr /\
    Forall2 (is_one_hot 10) y_test Yte.
Proof.
  intros Htr Hte.
  destruct (to_categorical_returns y_train 10 ltac:(discriminate) Htr) as [Ytr HYtr].
  destruct (to_categorical_returns y_test 10 ltac:(discriminate) Hte) as [Yte HYte].
  exists Ytr, Yte; split; [now apply cell_06_run|].
  apply to_categorical_rows in HYtr, HYte; try discriminate.
  assert (Hrows : forall y Y,
            Forall2 (fun c row => keras.one_hot 10 c = Ok row) y Y ->
            Forall2 (is_one_hot 10) y Y).
  { intros y Y H; eapply Forall2_impl; [exact H|].
    intros c row Hrow; exact (one_hot_row 10 c row Hrow). }
  split; [symmetry; eapply Forall2_length; exact HYtr|].
  split; [symmetry; eapply Forall2_length; exact HYte|].
  split; apply Hrows; assumption.
Qed.

(** C5 (hyperparameters).  Cell 2 binds batch size 128, 10 classes and 14
    epochs; in every run each of the three names is bound exactly once;
    every call of [compile] uses categorical cross-entropy, Adam with
    learning rate 1e-5 and the metrics accuracy, AUC, precision, recall in
    that order; every call of [fit] still sees batch size 128 and 14
    epochs; and on well-formed data the model is compiled exactly once. *)
Theorem hyperparameters_are_fixed ds forward measure curve :
  let log := w_log (snd (notebook ds forward measure curve fresh)) in
  fst (cell_02 fresh) = Ok (128, 10, 14) /\
  assignments "batch_size" log = 1%nat /\
  assignments "num_classes" log = 1%nat /\
  assignments "epochs" log = 1%nat /\
  (forall a, a ∈ compile_calls log ->
     a = {| keras.c_loss := keras.categorical_crossentropy;
            keras.c_optimizer := keras.Adam (1 # 100000);
            keras.c_metrics :=
              [keras.accuracy; keras.AUC; keras.Precision; keras.Recall] |}) /\
  (forall a, a ∈ fit_calls log ->
     keras.it_batch_size (keras.fit_x a) = 128 /\ keras.fit_epochs a = 14) /\
  (well_formed ds -> exists a, compile_calls log = [a]).
Proof.
  destruct ds as [xtr ytr xte yte]; cbv zeta.
  remember (notebook _ forward measure curve fresh) as run eqn:E.
  split; [reflexivity|].
  run_notebook E; subst run; cbn [snd w_log].
  1, 2: match goal with |- context [?L ++ ?x] => is_var x; set (before := L) end;
        rewrite !assignments_app, !(assignments_display _ l) by (reflexivity || assumption);
        unfold compile_calls, fit_calls; rewrite !omap_app;
        fold (compile_calls l); fold (fit_calls l);
        rewrite (compile_calls_display l), (fit_calls_display l) by assumption;
        subst before;
        do 3 (split; [vm_compute; reflexivity|]);
        split; [intros a ->%list_elem_of_singleton; reflexivity|];
        split; [intros a ->%list_elem_of_singleton; split; reflexivity|];
        intros _; eexists; reflexivity.
  1, 2: do 3 (split; [vm_compute; reflexivity|]);
        split; [intros a ->%list_elem_of_singleton; reflexivity|];
        split; [intros a ->%list_elem_of_singleton; split; reflexivity|];
        intros _; eexists; reflexivity.
  all: do 3 (split; [vm_compute; reflexivity|]);
       split; [intros a Ha; inversion Ha|];
       split; [intros a Ha; inversion Ha|];
       intros H; raised_on_well_formed H.
Qed.


(** C7 (evaluation).  A compiled model with metrics evaluates data that
    suits it (finite images of the declared shape, one row of targets per
    image) to the loss followed by its metrics in the order they were
    compiled in; for the model as the notebook compiles it, cell 14 binds
    [score] to five numbers: loss, accuracy, AUC, precision, recall.  On
    well-formed data of the form of CIFAR-10, with a positive training
    pixel and a test image, the notebook evaluates once, on the
    normalized test images and the one-hot test labels, and the five
    numbers it prints are the loss, accuracy, AUC, precision and recall
    of the trained model under the labels "Test loss:", "Test accuracy:",
    "Test AUC:", "Test Precision:" and "Test Recall:". *)
Theorem evaluate_scores_match_labels ds forward measure curve :
  let log := w_log (snd (notebook ds forward measure curve fresh)) in
  (forall model x y w c,
     w_compiled w = Some c ->
     keras.c_metrics c <> [] ->
     keras.check_data model x y = Ok tt ->
     finite_images x ->
     fst (evaluate measure model x y w)
     = Ok (keras.Scores
             (measure (w_fits w) keras.QLoss x y
                :: map (fun k => measure (w_fits w) (keras.QMetric k) x y)
                       (keras.c_metrics c)))) /\
  (forall x y w,
     w_compiled w = Some vgg_compile ->
     keras.check_data vgg x y = Ok tt ->
     finite_images x ->
     fst (cell_14 measure vgg x y w)
     = Ok (keras.Scores
             [measure (w_fits w) keras.QLoss x y;
              measure (w_fits w) (keras.QMetric keras.accuracy) x y;
              measure (w_fits w) (keras.QMetric keras.AUC) x y;
              measure (w_fits w) (keras.QMetric keras.Precision) x y;
              measure (w_fits w) (keras.QMetric keras.Recall) x y])) /\
  (well_formed ds ->
   cifar_shaped ds ->
   (exists p, p ∈ np.ravel (ds_x_train ds) /\ 0 < p) ->
   ds_x_test ds <> [] ->
   exists mx Ytr Yte,
     np.max (ds_x_train ds) = Ok mx /\
     keras.to_categorical (ds_y_train ds) 10 = Ok Ytr /\
     keras.to_categorical (ds_y_test ds) 10 = Ok Yte /\
     let x_test_norm := np.divide (ds_x_test ds) mx in
     let trained :=
       [vgg_fit (np.divide (ds_x_train ds) mx) x_test_norm Ytr Yte] in
     evaluate_calls log = [(x_test_norm, Yte)] /\
     labelled_floats log
     = [("Test loss:", measure trained keras.QLoss x_test_norm Yte);
        ("Test accuracy:",
         measure trained (keras.QMetric keras.accuracy) x_test_norm Yte);
        ("Test AUC:", measure trained (keras.QMetric keras.AUC) x_test_norm Yte);
        ("Test Precision:",
         measure trained (keras.QMetric keras.Precision) x_test_norm Yte);
        ("Test Recall:",
         measure trained (keras.QMetric keras.Recall) x_test_norm Yte)]).
Proof.
  destruct ds as [xtr ytr xte yte]; cbv zeta.
  cbn [ds_x_train ds_y_train ds_x_test ds_y_test].
  split.
  { intros model x y w c Hc Hm Hdata _; unfold evaluate, compiled.
    cbv [mbind mret Py_bind Py_ret emit get_fits lift]; rewrite Hc, Hdata.
    cbn [fst extend w_fits].
    destruct (keras.c_metrics c) as [|k ks] eqn:Ek; [congruence|].
    unfold keras.quantities; rewrite Ek; cbn [map]; now rewrite map_map. }
  split.
  { intros x y w Hc Hdata _.
    destruct (cell_14_run measure vgg x y w vgg_compile Hc eq_refl Hdata)
      as (loss & acc & auc & prec & rec & Hq & Hrun).
    rewrite Hrun; cbn [fst]; injection Hq as <- <- <- <- <-; reflexivity. }
  remember (notebook _ forward measure curve fresh) as run eqn:E.
  run_notebook E; subst run; cbn [snd w_log];
    [ | | intros Hwf Hs _ Hne; accepted_but_raised Hwf Hs Hne
      | intros Hwf Hs _ Hne; accepted_but_raised Hwf Hs Hne
      | intros H; raised_on_well_formed H ..].
  all: intros _ _ _ _; exists mx, Ytr, Yte; do 3 (split; [reflexivity|]); cbv zeta;
       unfold evaluate_calls, labelled_floats; rewrite ?omap_app;
       fold (evaluate_calls l); fold (labelled_floats l);
       rewrite (evaluate_calls_display l), (labelled_floats_display l) by assumption;
       split; reflexivity.
Qed.

(** C8 (parameter count).  The summary of the declared model is the table
    stored with the notebook: the convolutions keep the grid and the three
    poolings halve it from 32x32 to 4x4, Flatten yields 4*4*224 = 3584
    features, a convolution of [f] filters of size kh x kw on [c_in]
    channels has (kh*kw*c_in + 1)*f weights, the dense layers have
    (3584+1)*1024, (1024+1)*1024 and (1024+1)*10, and the total is
    6,332,650 trainable and no non-trainable parameters. *)
Theorem vgg_has_6332650_parameters :
  keras.summary_rows [32; 32; 3] vgg_layers = Ok recorded_summary /\
  keras.count_trainable vgg = Ok 6332650 /\
  keras.count_non_trainable vgg = Ok 0 /\
  foldr N.add 0 (map snd recorded_summary) = 6332650 /\
  (forall f kh kw act pad h w c_in,
     keras.trainable_params (keras.Conv2D f (kh, kw) act pad) [h; w; c_in]
     = (kh * kw * c_in + 1) * f) /\
  (forall u act n, keras.trainable_params (keras.Dense u act) [n] = (n + 1) * u) /\
  keras.output_shape [32; 32; 3] (take 13 vgg_layers) = Ok [4; 4; 224] /\
  keras.output_shape [32; 32; 3] (take 14 vgg_layers) = Ok [4 * 4 * 224] /\
  4 * 4 * 224 = 3584 /\
  (3584 + 1) * 1024 = 3671040 /\ (1024 + 1) * 1024 = 1049600 /\
  (1024 + 1) * 10 = 10250.
Proof. repeat split; reflexivity. Qed.

(** C9 (argmax after one-hot).  The argmax of the one-hot vector of a
    class index below 10 is that index.  So, for a test sample of the
    declared shape that the data holds, a pass of the loop of cell 20
    returns without an index error: the label it recovers from the
    one-hot row is the original one, the predicted label is below 10, and
    both index the ten class names of cell 17 for the title it draws. *)
Theorem argmax_recovers_label :
  (forall c, c < 10 ->
     exists row, keras.one_hot 10 c = Ok row /\ np.argmax row = Ok (N.to_nat c)) /\
  (forall forward (x_test : u8images) (y : list N) Y labels mx i n w img c,
     keras.to_categorical y 10 = Ok Y ->
     fst (cell_17 fresh) = Ok labels ->
     (i < 8)%nat ->
     x_test !! N.to_nat n = Some img ->
     np.has_shape [32; 32; 3] img = true ->
     y !! N.to_nat n = Some c ->
     let imgn := map (map (map (fun p => np.true_divide p mx))) img in
     exists row actual pl predicted,
       Y !! N.to_nat n = Some row /\ np.argmax row = Ok (N.to_nat c) /\
       (N.to_nat c < length labels)%nat /\
       labels !! N.to_nat c = Some actual /\
       np.argmax (map (forward (w_fits w) imgn) (seq 0 10)) = Ok pl /\
       (pl < length labels)%nat /\
       labels !! pl = Some predicted /\
       show_sample forward vgg x_test (np.divide x_test mx) Y labels 4 i n w
       = (Ok tt,
          extend w
            [Assign "i"; Assign "n"; Assign "img_norm"; Assign "img";
             Plt (subplot 4 2 (N.of_nat i + 1));
             Plt (imshow {| nd_shape := [32; 32; 3];
                            nd_data := concat (concat img) |});
             Plt (axis "off"); Assign "label"; Predict [imgn];
             Assign "predicted_label";
             Plt (title ("Actual = " +:+ actual +:+ ", Predicted = " +:+ predicted))])).
Proof.
  split.
  - intros c Hc.
    eexists; split; [apply one_hot_spec; split; [exact Hc | reflexivity]|].
    eapply argmax_one_hot, one_hot_spec; split; [exact Hc | reflexivity].
  - intros forward x_test y Y labels mx i n w img c HY Hlab Hi Himg Hs Hc imgn.
    assert (Hlen : length labels = 10%nat) by (injection Hlab as <-; reflexivity).
    destruct (show_sample_labelled forward x_test mx y Y labels 4 i n w img c
                HY ltac:(lia) Himg Hs Hc Hlen)
      as (actual & pl & predicted & Hact & Hpl & Hpred & Hrun).
    apply to_categorical_rows in HY; [|discriminate].
    destruct (Forall2_lookup_l _ _ _ _ _ HY Hc) as (row & Hrow & Hhot).
    exists row, actual, pl, predicted.
    split; [exact Hrow|]; split; [eapply argmax_one_hot; exact Hhot|].
    split; [eapply lookup_lt_Some; exact Hact|]; split; [exact Hact|].
    split; [exact Hpl|]; split; [eapply lookup_lt_Some; exact Hpred|].
    split; [exact Hpred | exact Hrun].
Qed.

(** C10 (unguarded division).  Cell 4 is well defined, returning arrays
    of finite numbers, exactly when the training images have a positive
    pixel.  When they have pixels and all are 0, the divisor
    [x_train.max()] is 0, nothing stops the division, and it takes the
    error branch: the cell returns, every number of [x_train_norm] is NaN
    and none of [x_test_norm] is finite. *)
Theorem normalization_needs_positive_pixel ds :
  (normalization_defined ds <->
   exists p, p ∈ np.ravel (ds_x_train ds) /\ 0 < p) /\
  (np.ravel (ds_x_train ds) <> [] ->
   Forall (fun p => p = 0) (np.ravel (ds_x_train ds)) ->
   np.max (ds_x_train ds) = Ok 0 /\
   fst (cell_04 ds fresh)
   = Ok (ds_x_train ds, ds_y_train ds, ds_x_test ds, ds_y_test ds,
         np.divide (ds_x_train ds) 0, np.divide (ds_x_test ds) 0) /\
   fravel (np.divide (ds_x_train ds) 0) <> [] /\
   Forall (fun x => x = NaN) (fravel (np.divide (ds_x_train ds) 0)) /\
   Forall (fun x => isfinite x = false) (fravel (np.divide (ds_x_test ds) 0))).
Proof.
  assert (Hzero : np.ravel (ds_x_train ds) <> [] ->
                  Forall (fun p => p = 0) (np.ravel (ds_x_train ds)) ->
                  np.max (ds_x_train ds) = Ok 0).
  { intros Hne Hall; destruct (max_returns _ Hne) as [m Hm].
    pose proof (max_in _ _ Hm) as Hin.
    rewrite Forall_forall in Hall; rewrite (Hall m Hin) in Hm; exact Hm. }
  split; [split|].
  - intros (xn & xt & Hrun & Hfin & _).
    destruct (np.max (ds_x_train ds)) as [m|e] eqn:Hm;
      [|rewrite (cell_04_raises _ _ _ Hm) in Hrun; discriminate].
    rewrite (cell_04_run _ _ _ Hm) in Hrun; cbn [fst] in Hrun.
    injection Hrun as <- <-.
    pose proof (max_in _ _ Hm) as Hin; exists m; split; [exact Hin|].
    destruct m as [|d]; [|lia].
    rewrite fravel_divide, Forall_forall in Hfin.
    specialize (Hfin (np.true_divide 0 0)); cbn in Hfin.
    enough (false = true) by discriminate; apply Hfin.
    apply list_elem_of_In, in_map_iff; exists 0; split; [reflexivity|].
    now apply list_elem_of_In.
  - intros (p & Hp & Hpos).
    destruct (max_returns (ds_x_train ds)) as [m Hm].
    { intros Hnil; rewrite Hnil in Hp; inversion Hp. }
    pose proof (max_positive _ _ _ Hm Hp Hpos) as Hmpos.
    exists (np.divide (ds_x_train ds) m), (np.divide (ds_x_test ds) m).
    rewrite (cell_04_run _ _ _ Hm); repeat split; now apply divide_finite.
  - intros Hne Hall; specialize (Hzero Hne Hall).
    split; [exact Hzero|].
    split; [rewrite (cell_04_run _ _ _ Hzero); reflexivity|].
    rewrite !fravel_divide; split; [|split].
    + destruct (np.ravel (ds_x_train ds)); [congruence | discriminate].
    + apply Forall_forall; intros x (p & <- & Hp)%list_elem_of_In%in_map_iff.
      rewrite Forall_forall in Hall.
      rewrite (Hall p) by now apply list_elem_of_In. reflexivity.
    + apply Forall_forall; intros x (p & <- & _)%list_elem_of_In%in_map_iff.
      apply true_divide_zero.
Qed.

(** * The statements at concrete data *)

(** C3 (normalization).  The comment of cell 4 says "Scale images between
    0 and 1", and the cell divides the test images by the maximum of the
    training images.  On data of the form of CIFAR-10 whose one training
    image has the value 100 everywhere and whose one test image the value
    200, cell 4 returns a normalized test image that is 200/100
    everywhere, which exceeds 1: the images are not scaled between 0 and
    1. *)
Lemma bright_test_is_not_scaled :
  cifar_shaped bright_test /\
  np.max (ds_x_train bright_test) = Ok 100 /\
  fst (cell_04 bright_test fresh)
  = Ok ([flat_image 100], [0], [flat_image 200], [0],
        [replicate 32 (replicate 32 (replicate 3 (Fin (100 # 100))))],
        [replicate 32 (replicate 32 (replicate 3 (Fin (200 # 100))))]) /\
  (1 < 200 # 100)%Q /\
  ~ scaled_to_unit bright_test.
Proof.
  split; [repeat split; repeat constructor|].
  split; [reflexivity|]; split; [vm_compute; reflexivity|]; split; [reflexivity|].
  intros (xn & xt & Hrun & _ & Hxt).
  vm_compute in Hrun; injection Hrun as <- <-.
  assert (Hx : in_unit_interval (Fin (200 # 100))) by exact (Forall_inv Hxt).
  destruct Hx as [_ Hle]; unfold Qle in Hle; simpl in Hle; lia.
Qed.

Lemma tiny_well_formed : well_formed tiny.
Proof.
  repeat split.
  - discriminate.
  - repeat constructor.
  - apply Forall_replicate; reflexivity.
Qed.

Lemma tiny_has_positive_pixel : exists p, p ∈ np.ravel (ds_x_train tiny) /\ 0 < p.
Proof. exists 3; split; [left | reflexivity]. Qed.

Lemma cifar_like_runnable : runnable cifar_like.
Proof.
  split; [|split; [|split]].
  - split; [vm_compute; discriminate|]; split; [repeat constructor|].
    apply Forall_replicate; reflexivity.
  - split; [repeat constructor|]; split; [apply Forall_replicate; reflexivity|].
    split; [reflexivity|].
    cbn [cifar_like ds_x_test ds_y_test]; now rewrite !length_replicate.
  - exists 3; split; [left | reflexivity].
  - cbn [cifar_like ds_x_test]; rewrite length_replicate; lia.
Qed.

Lemma steps_follow_pipeline_cifar_like :
  runnable cifar_like /\
  fst (notebook cifar_like forward0 measure0 curve0 fresh) = Ok tt /\
  steps (w_log (snd (notebook cifar_like forward0 measure0 curve0 fresh))) = pipeline.
Proof.
  pose proof (steps_follow_pipeline cifar_like forward0 measure0 curve0)
    as (_ & _ & Hend & Hrun).
  split; [exact cifar_like_runnable|].
  split; [exact (Hrun cifar_like_runnable)|].
  exact (proj1 (Hend (Hrun cifar_like_runnable))).
Defined.

Lemma labels_become_one_hot_rows_tiny :
  exists Ytr Yte,
    fst (cell_06 10 [2] [3; 0] fresh) = Ok (Ytr, Yte) /\
    Forall2 (is_one_hot 10) [2] Ytr /\ Forall2 (is_one_hot 10) [3; 0] Yte.
Proof.
  destruct (labels_become_one_hot_rows [2] [3; 0] fresh) as (Ytr & Yte & Hrun & _ & _ & Htr & Hte).
  - repeat constructor.
  - repeat constructor.
  - exists Ytr, Yte; rewrite Hrun; auto.
Defined.

Lemma hyperparameters_are_fixed_tiny :
  exists a,
    compile_calls (w_log (snd (notebook tiny forward0 measure0 curve0 fresh))) = [a].
Proof.
  exact (proj2 (proj2 (proj2 (proj2 (proj2 (proj2
           (hyperparameters_are_fixed tiny forward0 measure0 curve0))))))
           tiny_well_formed).
Defined.


Lemma evaluate_scores_match_labels_cifar_like :
  map fst (labelled_floats
             (w_log (snd (notebook cifar_like forward0 measure0 curve0 fresh))))
  = ["Test loss:"; "Test accuracy:"; "Test AUC:"; "Test Precision:";
     "Test Recall:"].
Proof.
  destruct cifar_like_runnable as (Hwf & Hs & Hpx & Hn).
  destruct (proj2 (proj2 (evaluate_scores_match_labels cifar_like forward0 measure0 curve0))
              Hwf Hs Hpx)
    as (mx & Ytr & Yte & _ & _ & _ & _ & Hprints).
  - intros Hnil; rewrite Hnil in Hn; cbn in Hn; lia.
  - rewrite Hprints; reflexivity.
Defined.

Lemma argmax_recovers_label_seven :
  (exists row, keras.one_hot 10 7 = Ok row /\ np.argmax row = Ok 7%nat) /\
  fst (show_sample forward0 vgg [flat_image 5] (np.divide [flat_image 5] 5)
         [<[7%nat := Fin 1]> (replicate 10 (Fin 0))]
         ["airplane"; "automobile"; "bird"; "cat"; "deer";
          "dog"; "frog"; "horse"; "ship"; "truck"]
         4 0 0 fresh)
  = Ok tt.
Proof.
  destruct argmax_recovers_label as [Hrow Hshow].
  split; [exact (Hrow 7 eq_refl)|].
  destruct (Hshow forward0 [flat_image 5] [7]
              [<[7%nat := Fin 1]> (replicate 10 (Fin 0))]
              ["airplane"; "automobile"; "bird"; "cat"; "deer";
               "dog"; "frog"; "horse"; "ship"; "truck"]
              5 0%nat 0 fresh (flat_image 5) 7 eq_refl eq_refl)
    as (row & actual & pl & predicted & _ & _ & _ & _ & _ & _ & _ & Hrun).
  - lia.
  - reflexivity.
  - reflexivity.
  - reflexivity.
  - rewrite Hrun; reflexivity.
Defined.

Lemma normalization_needs_positive_pixel_black :
  np.max (ds_x_train black_train) = Ok 0 /\
  Forall (fun x => x = NaN) (fravel (np.divide (ds_x_train black_train) 0)) /\
  normalization_defined tiny.
Proof.
  destruct (normalization_needs_positive_pixel black_train) as [_ Hzero].
  destruct Hzero as (Hmax & _ & _ & Hnan & _).
  - discriminate.
  - repeat constructor.
  - split; [exact Hmax|]; split; [exact Hnan|].
    exact (proj2 (proj1 (normalization_needs_positive_pixel tiny))
             tiny_has_positive_pixel).
Defined.

(** * Further properties *)

(** *** How a run can end *)

Lemma max_error a e : np.max a = Raise e -> e = ValueError /\ np.ravel a = [].
Proof.
  unfold np.max; destruct (np.ravel a); [intros [= <-]; auto | discriminate].
Qed.

Lemma max_ok_nonempty a m : np.max a = Ok m -> np.ravel a <> [].
Proof. unfold np.max; destruct (np.ravel a); [discriminate | discriminate]. Qed.

Lemma to_categorical_labels y Y :
  keras.to_categorical y 10 = Ok Y ->
  Forall (fun c => c < 10) y /\ length Y = length y.
Proof.
  intros H%to_categorical_rows; [|discriminate]; split.
  - induction H as [|c row y Y Hrow _ IH]; constructor; [|exact IH].
    now apply one_hot_spec in Hrow as [Hc _].
  - symmetry; eapply Forall2_length; exact H.
Qed.

Lemma to_categorical_error y e :
  keras.to_categorical y 10 = Raise e ->
  e = IndexError /\ ~ Forall (fun c => c < 10) y.
Proof.
  intros He.
  assert (Hbad : ~ Forall (fun c => c < 10) y).
  { intros Hall; destruct (to_categorical_returns y 10) as [Y HY];
      [discriminate | exact Hall | congruence]. }
  split; [|exact Hbad].
  rewrite (to_categorical_raises y 10) in He by (discriminate || exact Hbad).
  congruence.
Qed.

(** *** What a cell that returns has found *)

Lemma needs_bind_l {A B} Q (m : Py A) (f : A -> Py B) :
  needs Q m -> needs Q (m ≫= f).
Proof.
  intros Hm w b w' Hrun; rewrite run_bind in Hrun.
  destruct (m w) as [[a|e] w1] eqn:Em; [eapply Hm; exact Em | discriminate].
Qed.

Lemma needs_bind_r {A B} Q (m : Py A) (f : A -> Py B) :
  (forall a, needs Q (f a)) -> needs Q (m ≫= f).
Proof.
  intros Hf w b w' Hrun; rewrite run_bind in Hrun.
  destruct (m w) as [[a|e] w1]; [eapply Hf; exact Hrun | discriminate].
Qed.

Lemma needs_assign {A} Q name (m : Py A) : needs Q m -> needs Q (name ::= m).
Proof. intros Hm; unfold assign, assign_all; now apply needs_bind_l. Qed.

Lemma needs_getitem {A} (l : list A) i :
  needs (i < length l)%nat (lift (getitem l i)).
Proof.
  intros w a w' [= H _]; apply getitem_lookup in H.
  eapply lookup_lt_Some; exact H.
Qed.

Lemma needs_for {A} Q (l : list A) (body : A -> Py unit) a :
  a ∈ l -> needs Q (body a) -> needs Q (for_ l body).
Proof.
  intros Ha Hb; induction l as [|b l IH]; [inversion Ha|].
  cbn [for_]; apply elem_of_cons in Ha as [<-|Ha].
  - now apply needs_bind_l.
  - apply needs_bind_r; intros _; now apply IH.
Qed.

Lemma getitem_out_of_range {A} (l : list A) i :
  (length l <= i)%nat -> getitem l i = Raise IndexError.
Proof. intros H; unfold getitem; now rewrite (lookup_ge_None_2 l i H). Qed.

Section Samples.
Variable forward : list keras.fit_args -> fimage -> nat -> float.

(** A pass of the loop of cell 20 returns only for a sample the test
    images and the test labels hold. *)
Lemma show_sample_needs_image model (x_test : u8images) (x_test_norm : fimages)
    (y_test : fmatrix) labels nrows i n :
  needs (N.to_nat n < length x_test_norm)%nat
    (show_sample forward model x_test x_test_norm y_test labels nrows i n).
Proof.
  unfold show_sample.
  apply needs_bind_r; intros _.
  apply needs_bind_l, needs_assign, needs_bind_l, needs_getitem.
Qed.

Lemma show_sample_needs_label model (x_test : u8images) (x_test_norm : fimages)
    (y_test : fmatrix) labels nrows i n :
  needs (N.to_nat n < length y_test)%nat
    (show_sample forward model x_test x_test_norm y_test labels nrows i n).
Proof.
  unfold show_sample.
  do 6 (apply needs_bind_r; intros ?).
  apply needs_bind_l, needs_assign, needs_bind_l, needs_getitem.
Qed.

Lemma cell_20_needs_samples model (x_test : u8images) (x_test_norm : fimages)
    (y_test : fmatrix) labels :
  needs ((N.to_nat 8953 < length x_test_norm)%nat /\
         (N.to_nat 8953 < length y_test)%nat)
    (cell_20 forward model x_test x_test_norm y_test labels).
Proof.
  intros w a w' Hrun; unfold cell_20 in Hrun.
  erewrite run_bind_ok in Hrun by (apply run_assign; reflexivity).
  assert (Hin : (7%nat, 8953) ∈ enumerate [4; 83; 298; 1045; 3751; 5555; 7112; 8953])
    by (cbv [enumerate imap]; do 7 right; left).
  split.
  - revert Hrun; apply needs_bind_r; intros _.
    eapply needs_for; [exact Hin | apply show_sample_needs_image].
  - revert Hrun; apply needs_bind_r; intros _.
    eapply needs_for; [exact Hin | apply show_sample_needs_label].
Qed.

(** The loop body on a sample the test images do not hold. *)
Lemma show_sample_out_of_range model (x_test : u8images)
    (x_test_norm : fimages) (Y : fmatrix) labels nrows i n w :
  (length x_test_norm <= N.to_nat n)%nat ->
  fst (show_sample forward model x_test x_test_norm Y labels nrows i n w)
  = Raise IndexError.
Proof.
  intros Hshort; unfold show_sample.
  rewrite run_bind, run_emit_all, run_bind.
  pose proof (getitem_out_of_range x_test_norm (N.to_nat n) Hshort) as Hget.
  unfold assign, assign_all; rewrite !run_bind; unfold lift at 1.
  rewrite Hget; reflexivity.
Qed.

(** A loop whose bodies return or raise [e], one of them always raising,
    raises [e]. *)
Lemma for_raises {A} (l : list A) (body : A -> Py unit) e :
  (forall a w, a ∈ l ->
     (exists l', body a w = (Ok tt, extend w l')) \/ fst (body a w) = Raise e) ->
  (exists a, a ∈ l /\ forall w, fst (body a w) = Raise e) ->
  forall w, fst (for_ l body w) = Raise e.
Proof.
  induction l as [|a l IH]; intros Hbody (b & Hb & Hraise) w.
  - inversion Hb.
  - cbn [for_]; rewrite run_bind.
    destruct (Hbody a w ltac:(left)) as [[l' Hok]|Hr].
    + rewrite Hok; apply IH.
      * intros a' w' Ha'; apply Hbody; now right.
      * apply elem_of_cons in Hb as [->|Hb]; [|eauto].
        specialize (Hraise w); rewrite Hok in Hraise; discriminate.
    + destruct (body a w) as [[[]|e'] w']; cbn [fst] in Hr; [discriminate|].
      now injection Hr as ->.
Qed.

(** Cell 20 on test data of the declared shape that is too short for its
    samples. *)
Lemma cell_20_raises (x_test : u8images) mx (y : list N) Y labels w :
  keras.to_categorical y 10 = Ok Y ->
  Forall (fun img => np.has_shape [32; 32; 3] img = true) x_test ->
  length x_test = length y ->
  length labels = 10%nat ->
  (length x_test <= N.to_nat 8953)%nat ->
  fst (cell_20 forward vgg x_test (np.divide x_test mx) Y labels w) = Raise IndexError.
Proof.
  intros HY Hs Hlen Hlab Hshort; unfold cell_20.
  erewrite run_bind_ok by (apply run_assign; reflexivity).
  unfold plt at 1; erewrite run_bind_ok by reflexivity.
  apply for_raises.
  - intros [i n] w' Hin.
    assert (Hi : (i < 8)%nat).
    { cbv [enumerate imap] in Hin.
      repeat (apply elem_of_cons in Hin as [[= -> _]|Hin]; [lia|]); inversion Hin. }
    destruct (Nat.lt_ge_cases (N.to_nat n) (length x_test)) as [Hx|Hx];
      [|right; apply show_sample_out_of_range; rewrite divide_length; exact Hx].
    destruct (lookup_lt_is_Some_2 x_test (N.to_nat n) Hx) as [img Himg].
    destruct (lookup_lt_is_Some_2 y (N.to_nat n)) as [c Hc]; [lia|].
    assert (Hsi : np.has_shape [32; 32; 3] img = true).
    { rewrite Forall_forall in Hs; eapply Hs, list_elem_of_lookup_2; exact Himg. }
    destruct (show_sample_labelled forward x_test mx y Y labels
                (N.of_nat (length [4; 83; 298; 1045; 3751; 5555; 7112; 8953]) / 2)
                i n w' img c HY ltac:(change (N.of_nat i < 8); lia) Himg Hsi Hc Hlab)
      as (? & ? & ? & _ & _ & _ & Hrun).
    left; eexists; exact Hrun.
  - exists (7%nat, 8953); split.
    + cbv [enumerate imap]; do 7 right; left.
    + intros w'; apply show_sample_out_of_range; rewrite divide_length; exact Hshort.
Qed.

End Samples.

(** X1.  A run of the notebook finishes only on data that is complete:
    the training images hold a pixel, every label is a class index below
    10, there is one label per image, and the test set reaches index
    8953, the last sample cell 20 displays. *)
Theorem notebook_finishes_only_on_complete_data ds forward measure curve :
  fst (notebook ds forward measure curve fresh) = Ok tt ->
  well_formed ds /\
  length (ds_x_train ds) = length (ds_y_train ds) /\
  length (ds_x_test ds) = length (ds_y_test ds) /\
  (N.to_nat 8953 < length (ds_x_test ds))%nat.
Proof.
  destruct ds as [xtr ytr xte yte].
  remember (notebook _ forward measure curve fresh) as run eqn:E.
  run_notebook E; subst run; cbn [fst]; try discriminate.
  intros _; unfold well_formed; cbn [ds_x_train ds_y_train ds_x_test ds_y_test].
  destruct (to_categorical_labels _ _ Etr) as [Htr HlenYtr].
  destruct (to_categorical_labels _ _ Ete) as [Hte HlenYte].
  apply check_data_ok in Efit as (Hltr & _ & _).
  apply check_data_ok in Eval as (Hlte & _ & _).
  rewrite divide_length in Hltr, Hlte.
  apply (cell_20_needs_samples forward) in E20 as [Hx _].
  rewrite divide_length in Hx.
  repeat split; try assumption; try congruence.
  eapply max_ok_nonempty; eassumption.
Qed.

Lemma save_calls_display l :
  Forall (fun e => display_event e = true) l -> save_calls l = [].
Proof. apply omap_display; intros []; simpl; congruence. Qed.

(** X2.  When the training images hold no pixel, the run raises
    [ValueError] in cell 4: [x_train.max()] raises before anything is
    normalized, the run has entered the load step only and [x_train_norm]
    is never bound. *)
Theorem empty_training_set_raises_value_error ds forward measure curve :
  np.ravel (ds_x_train ds) = [] ->
  let run := notebook ds forward measure curve fresh in
  fst run = Raise ValueError /\
  steps (w_log (snd run)) = [SLoad] /\
  assignments "x_train_norm" (w_log (snd run)) = 0%nat.
Proof.
  destruct ds as [xtr ytr xte yte]; intros Hnil; cbv zeta.
  cbn [ds_x_train] in Hnil.
  remember (notebook _ forward measure curve fresh) as run eqn:E.
  run_notebook E; subst run; cbn [fst snd w_log].
  1-6: apply max_ok_nonempty in Emax; contradiction.
  destruct (max_error _ _ Emax) as [-> _]; repeat split; reflexivity.
Qed.

Lemma layer_calls_display l :
  Forall (fun e => display_event e = true) l -> layer_calls l = [].
Proof. apply omap_display; intros []; simpl; congruence. Qed.

(** X3.  On well-formed data of the form of CIFAR-10 with a positive
    training pixel, whose test set holds an image but fewer than the 8954
    cell 20 needs, the notebook trains and evaluates the model, then
    raises [IndexError] while displaying the samples: [model.save] is
    never reached. *)
Theorem short_test_set_trains_but_never_saves ds forward measure curve :
  well_formed ds ->
  cifar_shaped ds ->
  (exists p, p ∈ np.ravel (ds_x_train ds) /\ 0 < p) ->
  (0 < length (ds_x_test ds) <= N.to_nat 8953)%nat ->
  let run := notebook ds forward measure curve fresh in
  fst run = Raise IndexError /\
  (exists a, fit_calls (w_log (snd run)) = [a]) /\
  (exists xy, evaluate_calls (w_log (snd run)) = [xy]) /\
  save_calls (w_log (snd run)) = [].
Proof.
  destruct ds as [xtr ytr xte yte]; intros Hwf Hshaped _ [Hpos Hshort]; cbv zeta.
  cbn [ds_x_test] in Hpos, Hshort.
  assert (Hne : xte <> []) by (intros ->; cbn in Hpos; lia).
  destruct (cifar_shaped_accepted _ Hwf Hshaped Hne)
    as (mx' & Ytr' & Yte' & Hmx & HYtr & HYte & Htrain & Htest).
  destruct Hshaped as (_ & Hste & _ & Hlte).
  cbn [ds_x_train ds_y_train ds_x_test ds_y_test] in *.
  remember (notebook _ forward measure curve fresh) as run eqn:E.
  run_notebook E; subst run; cbn [fst snd w_log]; try (exfalso; congruence).
  - apply (cell_20_needs_samples forward) in E20 as [Hx _].
    rewrite divide_length in Hx; lia.
  - match type of E20 with
    | cell_20 _ _ _ _ _ ?L ?W = _ =>
        pose proof (cell_20_raises forward xte mx yte Yte L W Ete Hste Hlte
                      eq_refl Hshort) as Hraise
    end.
    rewrite E20 in Hraise; cbn [fst] in Hraise; injection Hraise as ->.
    unfold fit_calls, evaluate_calls, save_calls; rewrite !omap_app.
    fold (fit_calls l); fold (evaluate_calls l); fold (save_calls l).
    rewrite (fit_calls_display l), (evaluate_calls_display l), (save_calls_display l)
      by assumption.
    split; [reflexivity|]; split; [eexists; reflexivity|].
    split; [eexists; reflexivity | reflexivity].
Qed.

(** X4.  When the training images hold a pixel but a label of the
    training or test set is no class index below 10, the notebook raises
    [IndexError] in cell 6, after normalizing: no layer is declared, and
    nothing is compiled, trained or saved. *)
Theorem bad_label_stops_before_the_model ds forward measure curve :
  np.ravel (ds_x_train ds) <> [] ->
  ~ (Forall (fun c => c < 10) (ds_y_train ds) /\
     Forall (fun c => c < 10) (ds_y_test ds)) ->
  let run := notebook ds forward measure curve fresh in
  fst run = Raise IndexError /\
  (exists k, (2 <= k <= 3)%nat /\ steps (w_log (snd run)) = take k pipeline) /\
  layer_calls (w_log (snd run)) = [] /\
  compile_calls (w_log (snd run)) = [] /\
  fit_calls (w_log (snd run)) = [] /\
  save_calls (w_log (snd run)) = [].
Proof.
  destruct ds as [xtr ytr xte yte]; intros Hne Hbad; cbv zeta.
  cbn [ds_x_train ds_y_train ds_y_test] in Hne, Hbad.
  remember (notebook _ forward measure curve fresh) as run eqn:E.
  run_notebook E; subst run; cbn [fst snd w_log].
  1-4: exfalso; apply Hbad;
        destruct (to_categorical_labels _ _ Etr) as [Htr _];
        destruct (to_categorical_labels _ _ Ete) as [Hte _]; auto.
  - destruct (to_categorical_error _ _ Ete) as [-> _].
    split; [reflexivity|]; split; [exists 3%nat; split; [lia | reflexivity]|].
    repeat split; reflexivity.
  - destruct (to_categorical_error _ _ Etr) as [-> _].
    split; [reflexivity|]; split; [exists 2%nat; split; [lia | reflexivity]|].
    repeat split; reflexivity.
  - apply max_error in Emax as [_ Hnil]; contradiction.
Qed.

(** *** What the cells after training do *)

Lemma argmax_axis1_bound (a : fmatrix) l k :
  Forall (fun row => length row = k) a ->
  np.argmax_axis1 a = Ok l ->
  length l = length a /\ Forall (fun i => (i < k)%nat) l.
Proof.
  intros Ha Hl; apply result_mapM_Forall2 in Hl.
  split; [symmetry; eapply Forall2_length; exact Hl|].
  induction Hl as [|row i a l Hi _ IH]; constructor.
  - apply argmax_bound in Hi; apply Forall_inv in Ha; lia.
  - apply IH; eapply Forall_inv_tail; exact Ha.
Qed.

(** X5.  Cell 18 on test images the model accepts (at least one, each of
    32x32x3): it asks for one prediction on the whole array, binds
    [all_predictions] to one class index below 10 per test image and
    prints it.  On an empty array [predict] raises [ValueError] and
    nothing is bound. *)
Theorem all_predictions_are_class_indices forward (x_test_norm : fimages) w :
  (x_test_norm <> [] ->
   Forall (fun img => np.has_shape [32; 32; 3] img = true) x_test_norm ->
   exists preds,
     cell_18 forward vgg x_test_norm w
     = (Ok preds,
        extend w [Predict x_test_norm; Assign "all_predictions";
                  Print [IIndices preds]]) /\
     length preds = length x_test_norm /\
     Forall (fun i => (i < 10)%nat) preds) /\
  cell_18 forward vgg [] w = (Raise ValueError, extend w [Predict []]).
Proof.
  split; [|apply cell_18_raises; reflexivity].
  intros Hne Hs.
  destruct (cell_18_returns forward x_test_norm w) as (preds & Hp & Hrun).
  { apply feed_ok; split; [exact Hne | exact Hs]. }
  exists preds; split; [exact Hrun|].
  destruct (argmax_axis1_bound _ _ 10%nat (predict_rows forward (w_fits w) x_test_norm) Hp)
    as [Hlen Hb].
  rewrite length_map in Hlen; auto.
Qed.

(** X6.  Cell 20 only displays: whether it returns or raises, and
    whatever it is given, it leaves the compiled configuration and the
    trained weights of the model as they were, and the calls it logs
    include no [fit], [compile], [evaluate] or [save]. *)
Theorem display_leaves_the_model_untouched forward model (x_test : u8images)
    (x_test_norm : fimages) (y_test : fmatrix) labels w :
  let w' := snd (cell_20 forward model x_test x_test_norm y_test labels w) in
  w_compiled w' = w_compiled w /\
  w_fits w' = w_fits w /\
  exists l,
    w_log w' = w_log w ++ l /\
    fit_calls l = [] /\ compile_calls l = [] /\
    evaluate_calls l = [] /\ save_calls l = [].
Proof.
  cbv zeta.
  destruct (cell_20_appends forward model x_test x_test_norm y_test labels w)
    as (l & -> & Hl).
  split; [reflexivity|]; split; [reflexivity|].
  exists l; split; [reflexivity|].
  auto using fit_calls_display, compile_calls_display, evaluate_calls_display,
    save_calls_display.
Qed.

Lemma squeeze_one_pixel (px : list N) :
  exists s, nd_shape (np.squeeze (np.expand_dims0 (A := u8image) [[px]])) = s /\
            (length s <= 1)%nat.
Proof.
  eexists; split; [reflexivity|].
  unfold np.squeeze, np.expand_dims0, np.shape; cbn [nd_shape hd length].
  change (N.of_nat 1) with 1.
  rewrite 3!filter_cons_False by (intros H; now apply H).
  destruct (decide (N.of_nat (length px) <> 1)) as [H|H].
  - rewrite filter_cons_True by exact H; cbn; lia.
  - rewrite filter_cons_False by exact H; cbn; lia.
Qed.

(** X7.  A sample of one pixel cannot be displayed: [squeeze] leaves an
    array of rank 1 (or 0, for one channel), [plt.imshow] raises
    [TypeError], and the pass of the loop stops after the subplot was
    made: no label is read and nothing is predicted or titled. *)
Theorem one_pixel_sample_is_not_drawn forward model (x_test : u8images)
    (x_test_norm : fimages) (y_test : fmatrix) labels nrows i n w px imgn :
  N.of_nat i < nrows * 2 ->
  x_test !! N.to_nat n = Some [[px]] ->
  x_test_norm !! N.to_nat n = Some imgn ->
  show_sample forward model x_test x_test_norm y_test labels nrows i n w
  = (Raise TypeError,
     extend w [Assign "i"; Assign "n"; Assign "img_norm"; Assign "img";
               Plt (subplot nrows 2 (N.of_nat i + 1))]).
Proof.
  intros Hi Hx' Hxn'.
  assert (Hx : getitem (A := u8image) x_test (N.to_nat n) = Ok [[px]])
    by (apply getitem_lookup; exact Hx').
  assert (Hxn : getitem (A := fimage) x_test_norm (N.to_nat n) = Ok imgn)
    by (apply getitem_lookup; exact Hxn').
  unfold show_sample, plt_subplot, plt_imshow.
  rewrite (subplot_index _ _ Hi).
  cbv [assign assign_all plt lift emit emit_all get_fits mbind mret Py_bind Py_ret map].
  rewrite Hxn, Hx.
  destruct (squeeze_one_pixel px) as (s & -> & Hlen).
  destruct s as [|c [|]]; cbn in Hlen; try lia;
    cbn [extend w_log w_compiled w_fits]; rewrite ?extend_extend; reflexivity.
Qed.

(** X8.  The data [evaluate] scores the model on is the validation data
    [fit] was given: in every run, each call of [evaluate] has for
    arguments the [validation_data] of each call of [fit]. *)
Theorem evaluated_on_the_validation_data ds forward measure curve :
  let log := w_log (snd (notebook ds forward measure curve fresh)) in
  forall a x y,
    a ∈ fit_calls log -> (x, y) ∈ evaluate_calls log ->
    keras.fit_validation_data a = (x, y).
Proof.
  destruct ds as [xtr ytr xte yte]; cbv zeta.
  remember (notebook _ forward measure curve fresh) as run eqn:E.
  run_notebook E; subst run; cbn [snd w_log].
  1, 2: unfold fit_calls, evaluate_calls; rewrite !omap_app;
        fold (fit_calls l); fold (evaluate_calls l);
        rewrite (fit_calls_display l), (evaluate_calls_display l) by assumption;
        cbn; intros a x y ->%list_elem_of_singleton [= -> ->]%list_elem_of_singleton;
        reflexivity.
  1, 2: cbn; intros a x y _ Hxy; inversion Hxy.
  all: intros a x y Ha; inversion Ha.
Qed.

(** *** The model on other inputs *)

Ltac div_lia := zify; Z.to_euclidean_division_equations; lia.

Lemma conv_same_shape f kh kw act h w c :
  keras.compute_output_shape (keras.Conv2D f (kh, kw) act keras.same) [h; w; c]
  = Ok [h; w; f].
Proof.
  cbn [keras.compute_output_shape keras.conv_axis result_bind].
  do 2 f_equal; [|f_equal]; div_lia.
Qed.

Lemma pool_shape h w c :
  keras.compute_output_shape (keras.MaxPooling2D (2, 2)) [h; w; c]
  = if (2 <=? h) && (2 <=? w) then Ok [h / 2; w / 2; c] else Raise ValueError.
Proof.
  cbn [keras.compute_output_shape keras.conv_axis].
  destruct (N.ltb_spec h 2), (N.leb_spec 2 h); try lia; cbn [result_bind andb];
    [reflexivity|].
  destruct (N.ltb_spec w 2), (N.leb_spec 2 w); try lia; cbn [result_bind];
    [reflexivity|].
  do 2 f_equal; [|f_equal]; div_lia.
Qed.

Lemma run_perform {A} e (r : result A) w :
  perform e r w = match r with
                  | Ok v => (Ok v, extend w [e])
                  | Raise x => (Raise x, w)
                  end.
Proof. destruct r; reflexivity. Qed.

(** A stack of layers is built exactly when shape inference goes through
    them; the tensor it returns has the inferred shape and the layers
    behind it. *)
Lemma stack_returns ls : forall x w out,
  keras.output_shape (keras.tensor_shape x) (map snd ls) = Ok out ->
  exists t l,
    stack x ls w = (Ok t, extend w l) /\
    keras.tensor_shape t = out /\
    keras.trace_back t
    = (let '(s, name, ls0) := keras.trace_back x in (s, name, ls0 ++ map snd ls)).
Proof.
  induction ls as [|[name l] ls IH]; intros x w out Hout.
  - cbn in Hout; injection Hout as <-.
    exists x, []; cbn; rewrite extend_nil.
    split; [reflexivity|]; split; [reflexivity|].
    destruct (keras.trace_back x) as [[s n] ls0]; now rewrite app_nil_r.
  - cbn [map snd keras.output_shape] in Hout.
    destruct (keras.compute_output_shape l (keras.tensor_shape x)) as [s1|] eqn:Es;
      [|discriminate]; cbn [result_bind] in Hout.
    cbn [stack].
    erewrite run_bind_ok
      by (apply run_assign; unfold apply, keras.call; rewrite Es; reflexivity).
    destruct (IH (keras.KNode l s1 x) (extend (extend w [CallLayer l]) [Assign name])
                 out Hout) as (t & l' & Hrun & Hshape & Htrace).
    exists t; eexists; rewrite Hrun, !extend_extend.
    split; [reflexivity|]; split; [exact Hshape|].
    rewrite Htrace; cbn [keras.trace_back].
    destruct (keras.trace_back x) as [[s n] ls0]; cbn [map snd].
    now rewrite <- app_assoc.
Qed.

Lemma stack_raises ls : forall x w e,
  keras.output_shape (keras.tensor_shape x) (map snd ls) = Raise e ->
  fst (stack x ls w) = Raise e.
Proof.
  induction ls as [|[name l] ls IH]; intros x w e Hout; [discriminate|].
  cbn [map snd keras.output_shape] in Hout; cbn [stack].
  destruct (keras.compute_output_shape l (keras.tensor_shape x)) as [s1|e1] eqn:Es;
    cbn [result_bind] in Hout.
  - erewrite run_bind_ok
      by (apply run_assign; unfold apply, keras.call; rewrite Es; reflexivity).
    now apply IH.
  - injection Hout as <-.
    unfold assign, assign_all, apply, keras.call; rewrite Es.
    reflexivity.
Qed.

Lemma run_bind_assoc {A B C} (m : Py A) (f : A -> Py B) (g : B -> Py C) w :
  ((m ≫= f) ≫= g) w = (m ≫= (fun a => f a ≫= g)) w.
Proof. rewrite !run_bind; destruct (m w) as [[a|e] w']; reflexivity. Qed.

Lemma run_bind_ext {A B} (m : Py A) (f g : A -> Py B) w :
  (forall a w', f a w' = g a w') -> (m ≫= f) w = (m ≫= g) w.
Proof.
  intros Hfg; rewrite !run_bind; destruct (m w) as [[a|e] w']; [apply Hfg | reflexivity].
Qed.

(** Cell 7 is the stack of its eighteen named layers on the input. *)
Lemma cell_07_is_a_stack s num_classes w :
  cell_07 s num_classes w
  = (inputs ← "inputs" ::= Input s "input_images";
     outputs ← stack inputs (zip vgg_names (vgg_layers_for num_classes));
     "model" ::= Model inputs outputs) w.
Proof.
  unfold cell_07; apply run_bind_ext; intros inputs w1.
  cbv [vgg_names vgg_layers_for vgg_layers take app zip zip_with].
  do 18 (cbn [stack]; rewrite run_bind_assoc; apply run_bind_ext; intros ? ?).
  reflexivity.
Qed.

Ltac through_convolutions :=
  repeat (rewrite conv_same_shape; cbn [result_bind]).

Lemma vgg_shapes h w c num_classes :
  keras.output_shape [h; w; c] (vgg_layers_for num_classes)
  = if (8 <=? h) && (8 <=? w) then Ok [num_classes] else Raise ValueError.
Proof.
  cbv [vgg_layers_for vgg_layers take app].
  cbn [keras.output_shape]; through_convolutions.
  rewrite pool_shape.
  destruct (N.leb_spec 2 h), (N.leb_spec 2 w); cbn [andb result_bind];
    try (destruct (N.leb_spec 8 h), (N.leb_spec 8 w); cbn [andb]; (reflexivity || lia)).
  through_convolutions; rewrite pool_shape.
  destruct (N.leb_spec 2 (h / 2)), (N.leb_spec 2 (w / 2)); cbn [andb result_bind];
    try (destruct (N.leb_spec 8 h), (N.leb_spec 8 w); cbn [andb];
         (reflexivity || div_lia)).
  through_convolutions; rewrite pool_shape.
  destruct (N.leb_spec 2 (h / 2 / 2)), (N.leb_spec 2 (w / 2 / 2)); cbn [andb result_bind];
    try (destruct (N.leb_spec 8 h), (N.leb_spec 8 w); cbn [andb];
         (reflexivity || div_lia)).
Qed.

Lemma vgg_count h w c num_classes :
  8 <= h -> 8 <= w ->
  keras.sum_params keras.trainable_params [h; w; c] (vgg_layers_for num_classes)
  = Ok (vgg_parameters h w c num_classes).
Proof.
  intros Hh Hw.
  cbv [vgg_layers_for vgg_layers take app].
  cbn [keras.sum_params].
  do 3 (through_convolutions; rewrite pool_shape;
        repeat match goal with
          | |- context [(2 <=? ?n)] =>
              destruct (N.leb_spec 2 n); [|div_lia]; cbn [andb result_bind]
          end).
  through_convolutions.
  cbn; f_equal; unfold vgg_parameters.
  replace (h / 2 / 2 / 2) with (h / 8) by div_lia.
  replace (w / 2 / 2 / 2) with (w / 8) by div_lia.
  lia.
Qed.

Lemma cell_07_run s num_classes w :
  fst (cell_07 s num_classes w)
  = match keras.output_shape s (vgg_layers_for num_classes) with
    | Ok _ => Ok {| keras.m_input_shape := s;
                    keras.m_input_name := "input_images";
                    keras.m_layers := vgg_layers_for num_classes |}
    | Raise e => Raise e
    end.
Proof.
  rewrite cell_07_is_a_stack.
  erewrite run_bind_ok by (apply run_assign; reflexivity).
  rewrite run_bind.
  destruct (keras.output_shape s _) as [out|e] eqn:Hout.
  - destruct (stack_returns (zip vgg_names (vgg_layers_for num_classes))
                (keras.KInput s "input_images")
                (extend (extend w [NewInput s "input_images"]) [Assign "inputs"])
                out Hout) as (t & l & -> & _ & Htrace).
    cbn [keras.trace_back app] in Htrace.
    erewrite run_assign; [reflexivity|].
    unfold Model, keras.new_Model; rewrite Htrace, decide_True by auto.
    reflexivity.
  - pose proof (stack_raises (zip vgg_names (vgg_layers_for num_classes))
                  (keras.KInput s "input_images")
                  (extend (extend w [NewInput s "input_images"]) [Assign "inputs"])
                  e Hout) as Hr.
    destruct (stack _ _ _) as [[t|e'] w']; cbn [fst] in Hr; [discriminate|].
    now injection Hr as ->.
Qed.

(** X9.  Cell 7 works for other images than CIFAR's, as long as they do
    not run out of pixels: on an input of [h] by [w] pixels with [c]
    channels and for [num_classes] classes it builds the same stack,
    ending in [num_classes] outputs, exactly when [h] and [w] are at least
    8 (each of the three poolings halves them and needs two pixels);
    below that, the call of a pooling layer raises [ValueError].  The
    model then has [vgg_parameters h w c num_classes] weights. *)
Theorem vgg_needs_eight_pixels h w c num_classes world :
  0 < c -> 0 < num_classes ->
  (8 <= h /\ 8 <= w ->
   fst (cell_07 [h; w; c] num_classes world)
   = Ok {| keras.m_input_shape := [h; w; c];
           keras.m_input_name := "input_images";
           keras.m_layers := vgg_layers_for num_classes |} /\
   keras.output_shape [h; w; c] (vgg_layers_for num_classes) = Ok [num_classes] /\
   keras.sum_params keras.trainable_params [h; w; c] (vgg_layers_for num_classes)
   = Ok (vgg_parameters h w c num_classes)) /\
  (h < 8 \/ w < 8 -> fst (cell_07 [h; w; c] num_classes world) = Raise ValueError).
Proof.
  intros _ _; rewrite cell_07_run, vgg_shapes.
  destruct (N.leb_spec 8 h), (N.leb_spec 8 w); cbn [andb];
    (split; [intros [Hh Hw]; try lia | intros Hsmall; try lia; try reflexivity]).
  split; [reflexivity|]; split; [reflexivity|].
  now apply vgg_count.
Qed.

(** *** The loss curves *)

Lemma getkey_map {A} (v : string -> A) (names : list string) key :
  key ∈ names -> getkey (map (fun name => (name, v name)) names) key = Ok (v key).
Proof.
  induction names as [|n names IH]; intros Hin; [inversion Hin|].
  cbn [map getkey]; destruct (bool_decide_reflect (n = key)) as [->|Hne];
    [reflexivity|].
  apply IH; apply elem_of_cons in Hin as [->|Hin]; [contradiction | exact Hin].
Qed.

Lemma range_length a b : length (range a b) = N.to_nat (b - a).
Proof. unfold range; now rewrite length_map, length_seq. Qed.

(** The history a compiled model returns from [fit]. *)
(** The history a compiled model returns from [fit] on data that suits
    it, for at least one epoch. *)
Lemma fit_run curve model args w c :
  w_compiled w = Some c ->
  0 < keras.fit_epochs args ->
  keras.check_data model (keras.it_x (keras.fit_x args))
                         (keras.it_y (keras.fit_x args)) = Ok tt ->
  keras.check_data model (keras.fit_validation_data args).1
                         (keras.fit_validation_data args).2 = Ok tt ->
  fit curve model args w
  = (Ok (map (fun name =>
                (name, map (curve (w_fits w ++ [args]) name)
                           (seq 0 (N.to_nat (keras.fit_epochs args)))))
             (map keras.quantity_name (keras.quantities c)
              ++ map (String.append "val_")
                     (map keras.quantity_name (keras.quantities c)))),
     {| w_log := w_log w ++ [Fit args];
        w_compiled := w_compiled w;
        w_fits := w_fits w ++ [args] |}).
Proof.
  intros Hc He Htrain Hval; unfold fit, compiled.
  cbv [mbind mret Py_bind Py_ret emit add_fit get_fits extend lift
       w_log w_compiled w_fits].
  destruct w as [log comp fits]; cbn in Hc; subst comp.
  cbn [w_compiled]; destruct (N.eqb_spec (keras.fit_epochs args) 0) as [H0|_]; [lia|].
  rewrite Htrain, Hval; reflexivity.
Qed.

(** X10.  The loss curves compose with training.  The history [fit]
    returns for a compiled model, whatever its metrics, on finite data
    that suits the model and for at least one epoch, has a "loss" and a
    "val_loss" curve of one value per epoch, so cell 16 plots both
    against the epochs 1, ..., [epochs] without a [KeyError] or a length
    mismatch; given an epoch count other than the one [fit] ran for, its
    [plot] raises [ValueError].  With no epoch to run, [fit] returns an
    empty history and cell 16 raises [KeyError]. *)
Theorem loss_curves_fit_the_history curve model args w c :
  w_compiled w = Some c ->
  let epochs := keras.fit_epochs args in
  (0 < epochs ->
   keras.check_data model (keras.it_x (keras.fit_x args))
                          (keras.it_y (keras.fit_x args)) = Ok tt ->
   keras.check_data model (keras.fit_validation_data args).1
                          (keras.fit_validation_data args).2 = Ok tt ->
   finite_images (keras.it_x (keras.fit_x args)) ->
   finite_images (keras.fit_validation_data args).1 ->
   exists history w',
     fit curve model args w = (Ok history, w') /\
     let loss := map (curve (w_fits w') "loss") (seq 0 (N.to_nat epochs)) in
     let val_loss := map (curve (w_fits w') "val_loss") (seq 0 (N.to_nat epochs)) in
     getkey history "loss" = Ok loss /\
     getkey history "val_loss" = Ok val_loss /\
     (forall w2,
        cell_16 epochs history w2
        = (Ok tt,
           extend w2
             [Plt (plot [(range 1 (epochs + 1), loss, ".-");
                         (range 1 (epochs + 1), val_loss, ".-")]);
              Plt (legend ["training loss"; "testing loss"]);
              Plt (title "Loss curve"); Plt (xlabel "Epoch"); Plt (ylabel "Loss")])) /\
     (forall other w2,
        other <> epochs -> fst (cell_16 other history w2) = Raise ValueError)) /\
  (epochs = 0 ->
   fit curve model args w = (Ok [], extend w [Fit args]) /\
   forall w2, cell_16 epochs [] w2 = (Raise KeyError, w2)).
Proof.
  intros Hc epochs; split.
  2: { intros H0; split; [|reflexivity].
       unfold fit, compiled; cbv [mbind mret Py_bind Py_ret emit]; rewrite Hc.
       fold epochs; rewrite H0; reflexivity. }
  intros Hpos Htrain Hval _ _.
  do 2 eexists; split; [apply (fit_run _ _ _ _ _ Hc Hpos Htrain Hval)|].
  cbn zeta beta iota delta [w_fits]; fold epochs.
  set (loss := map (curve (w_fits w ++ [args]) "loss") (seq 0 (N.to_nat epochs))).
  set (val_loss := map (curve (w_fits w ++ [args]) "val_loss") (seq 0 (N.to_nat epochs))).
  set (v := fun name => map (curve (w_fits w ++ [args]) name) (seq 0 (N.to_nat epochs))).
  assert (Hloss : forall names,
            getkey (map (fun name => (name, v name))
                        (map keras.quantity_name (keras.quantities c) ++ names)) "loss"
            = Ok loss).
  { intros names; apply (getkey_map v); left. }
  assert (Hval' : getkey (map (fun name => (name, v name))
                          (map keras.quantity_name (keras.quantities c)
                           ++ map (String.append "val_")
                                  (map keras.quantity_name (keras.quantities c))))
                        "val_loss"
                 = Ok val_loss).
  { apply (getkey_map v), elem_of_app; right; left. }
  split; [apply Hloss|]; split; [exact Hval'|].
  subst v; cbv beta in Hloss, Hval'.
  assert (Hlen : forall e, Nat.eqb (length (range 1 (e + 1))) (N.to_nat epochs)
                           = bool_decide (e = epochs)).
  { intros e; rewrite range_length.
    destruct (bool_decide_reflect (e = epochs)) as [->|Hne].
    - apply Nat.eqb_eq; lia.
    - apply Nat.eqb_neq; lia. }
  split.
  - intros w2; unfold cell_16, plt_plot, plt.
    cbv [lift emit mbind mret Py_bind Py_ret].
    rewrite Hloss, Hval'; cbn [forallb].
    unfold loss, val_loss; rewrite !length_map, !length_seq, Hlen.
    rewrite bool_decide_eq_true_2 by reflexivity; cbn [andb].
    rewrite !extend_extend; reflexivity.
  - intros other w2 Hne; unfold cell_16, plt_plot, plt.
    cbv [lift emit mbind mret Py_bind Py_ret].
    rewrite Hloss, Hval'; cbn [forallb].
    unfold loss, val_loss; rewrite !length_map, !length_seq, Hlen.
    rewrite bool_decide_eq_false_2 by exact Hne; reflexivity.
Qed.

(** *** Normalization and the unit interval *)

Lemma true_divide_unit_inv x m :
  in_unit_interval (np.true_divide x m) -> 0 < m /\ x <= m.
Proof.
  destruct m as [|d]; cbn.
  - destruct (x =? 0); intros [].
  - unfold Qle; cbn; lia.
Qed.

Lemma divide_unit_inv a m :
  Forall in_unit_interval (fravel (np.divide a m)) ->
  Forall (fun x => 0 < m /\ x <= m) (np.ravel a).
Proof.
  rewrite fravel_divide, !Forall_forall; intros H x Hx.
  apply true_divide_unit_inv, H, list_elem_of_In, in_map_iff.
  exists x; split; [reflexivity | now apply list_elem_of_In].
Qed.

(** X11.  Cell 4 scales both arrays into [0,1] exactly when the brightest
    training pixel is positive and no test pixel is brighter than it:
    the divisor of both quotients is the training maximum, the test
    images have no say in it. *)
Theorem scaled_to_unit_iff_test_within_training_max ds :
  scaled_to_unit ds <->
  exists m, np.max (ds_x_train ds) = Ok m /\ 0 < m /\
            Forall (fun p => p <= m) (np.ravel (ds_x_test ds)).
Proof.
  split.
  - intros (xn & xt & Hrun & Htr & Hte).
    destruct (np.max (ds_x_train ds)) as [m|e] eqn:Hm;
      [|rewrite (cell_04_raises _ _ _ Hm) in Hrun; discriminate].
    rewrite (cell_04_run _ _ _ Hm) in Hrun; cbn [fst] in Hrun.
    injection Hrun as <- <-.
    apply divide_unit_inv in Htr, Hte.
    exists m; split; [reflexivity|].
    pose proof (max_in _ _ Hm) as Hin.
    rewrite Forall_forall in Htr; split; [apply (Htr m Hin)|].
    eapply Forall_impl; [exact Hte|]; intros p [_ Hp]; exact Hp.
  - intros (m & Hm & Hpos & Hte).
    exists (np.divide (ds_x_train ds) m), (np.divide (ds_x_test ds) m).
    rewrite (cell_04_run _ _ _ Hm); split; [reflexivity|].
    split; apply divide_unit; try assumption.
    now apply max_bound.
Qed.

(** *** The score and its entries *)

Lemma evaluate_run measure model x y w c :
  w_compiled w = Some c ->
  keras.check_data model x y = Ok tt ->
  evaluate measure model x y w
  = (Ok (match keras.c_metrics c with
         | [] => keras.Scalar (measure (w_fits w) keras.QLoss x y)
         | _ :: _ =>
             keras.Scores (map (fun q => measure (w_fits w) q x y) (keras.quantities c))
         end),
     extend w [Evaluate x y]).
Proof.
  intros Hc Hdata; unfold evaluate, compiled.
  cbv [lift emit get_fits mbind mret Py_bind Py_ret].
  rewrite Hc, Hdata; reflexivity.
Qed.

(** X12.  Cell 14 reads [score[0]] to [score[4]], so it depends on the
    number of metrics the model was compiled with.  On finite data that
    suits the model, [evaluate] returns the loss and one number per metric, and
    the values printed are the leading entries of that list, in order:
    with four metrics or more the cell returns the score after its five
    print lines, with one to three it raises [IndexError] after one line
    per entry.  For a model compiled without metrics the score is a bare
    float: [score[0]] raises [TypeError] and nothing is printed. *)
Theorem score_lines_need_four_metrics measure model x y w c :
  w_compiled w = Some c ->
  keras.check_data model x y = Ok tt ->
  finite_images x ->
  let run := cell_14 measure model x y w in
  let values := map (fun q => measure (w_fits w) q x y) (keras.quantities c) in
  match keras.c_metrics c with
  | [] => run = (Raise TypeError, extend w [Evaluate x y; Assign "score"])
  | _ :: _ =>
      exists lines,
        snd run = extend w (Evaluate x y :: Assign "score" :: map Print lines) /\
        omap (fun l => match l with
                       | [IStr _; IFloat s] => Some s
                       | _ => None
                       end) lines
        = take (length lines) values /\
        if bool_decide (4 <= length (keras.c_metrics c))%nat
        then fst run = Ok (keras.Scores values) /\ length lines = 5%nat
        else fst run = Raise IndexError /\ length lines = length values
  end.
Proof.
  intros Hc Hdata _; cbv zeta.
  unfold cell_14, print.
  cbv [assign assign_all emit_all lift emit mbind mret Py_bind Py_ret].
  rewrite (evaluate_run _ _ _ _ _ _ Hc Hdata).
  destruct c as [lo op ms]; cbn [keras.quantities keras.c_metrics map].
  destruct ms as [|m1 [|m2 [|m3 [|m4 ms]]]];
    cbn [map getitem score_getitem lookup list_lookup];
    rewrite ?extend_extend; cbn [fst snd length]; [reflexivity | ..].
  4: { exists [[IStr "Test loss:"; IFloat (measure (w_fits w) keras.QLoss x y)];
               [IStr "Test accuracy:"; IFloat (measure (w_fits w) (keras.QMetric m1) x y)];
               [IStr "Test AUC:"; IFloat (measure (w_fits w) (keras.QMetric m2) x y)];
               [IStr "Test Precision:"; IFloat (measure (w_fits w) (keras.QMetric m3) x y)];
               [IStr "Test Recall:"; IFloat (measure (w_fits w) (keras.QMetric m4) x y)]].
       repeat split. }
  - exists [[IStr "Test loss:"; IFloat (measure (w_fits w) keras.QLoss x y)];
            [IStr "Test accuracy:"; IFloat (measure (w_fits w) (keras.QMetric m1) x y)]].
    repeat split.
  - exists [[IStr "Test loss:"; IFloat (measure (w_fits w) keras.QLoss x y)];
            [IStr "Test accuracy:"; IFloat (measure (w_fits w) (keras.QMetric m1) x y)];
            [IStr "Test AUC:"; IFloat (measure (w_fits w) (keras.QMetric m2) x y)]].
    repeat split.
  - exists [[IStr "Test loss:"; IFloat (measure (w_fits w) keras.QLoss x y)];
            [IStr "Test accuracy:"; IFloat (measure (w_fits w) (keras.QMetric m1) x y)];
            [IStr "Test AUC:"; IFloat (measure (w_fits w) (keras.QMetric m2) x y)];
            [IStr "Test Precision:"; IFloat (measure (w_fits w) (keras.QMetric m3) x y)]].
    repeat split.
Qed.
(** * The further statements at concrete data *)

Lemma short_test_well_formed : well_formed short_test.
Proof.
  split; [vm_compute; discriminate|]; split; repeat constructor.
Qed.

Lemma short_test_shaped : cifar_shaped short_test.
Proof. repeat split; repeat constructor. Qed.

Lemma one_image_finite : finite_images one_image.
Proof. apply divide_finite; reflexivity. Qed.

Lemma cifar_like_is_complete :
  fst (notebook cifar_like forward0 measure0 curve0 fresh) = Ok tt /\
  well_formed cifar_like /\
  (N.to_nat 8953 < length (ds_x_test cifar_like))%nat.
Proof.
  pose proof (runnable_finishes cifar_like forward0 measure0 curve0
                cifar_like_runnable) as Hrun.
  destruct (notebook_finishes_only_on_complete_data
              cifar_like forward0 measure0 curve0 Hrun) as (Hwf & _ & _ & Hn).
  split; [exact Hrun|]; split; [exact Hwf | exact Hn].
Defined.

Lemma no_pixels_raises_value_error :
  np.ravel (ds_x_train no_pixels) = [] /\
  fst (notebook no_pixels forward0 measure0 curve0 fresh) = Raise ValueError /\
  steps (w_log (snd (notebook no_pixels forward0 measure0 curve0 fresh))) = [SLoad].
Proof.
  split; [reflexivity|].
  destruct (empty_training_set_raises_value_error
              no_pixels forward0 measure0 curve0 eq_refl) as (Hrun & Hsteps & _).
  split; [exact Hrun | exact Hsteps].
Defined.

Lemma short_test_never_saves :
  well_formed short_test /\
  fst (notebook short_test forward0 measure0 curve0 fresh) = Raise IndexError /\
  save_calls (w_log (snd (notebook short_test forward0 measure0 curve0 fresh))) = [].
Proof.
  split; [exact short_test_well_formed|].
  destruct (short_test_set_trains_but_never_saves short_test forward0 measure0 curve0
              short_test_well_formed short_test_shaped)
    as (Hrun & _ & _ & Hsave).
  - exists 7; split; [left | reflexivity].
  - cbn [short_test ds_x_test length]; lia.
  - split; [exact Hrun | exact Hsave].
Defined.

Lemma bad_label_declares_no_layer :
  fst (notebook bad_label forward0 measure0 curve0 fresh) = Raise IndexError /\
  layer_calls (w_log (snd (notebook bad_label forward0 measure0 curve0 fresh))) = [].
Proof.
  destruct (bad_label_stops_before_the_model bad_label forward0 measure0 curve0)
    as (Hrun & _ & Hlayers & _).
  - discriminate.
  - intros [Htr _]; apply Forall_inv in Htr; simpl in Htr; lia.
  - split; [exact Hrun | exact Hlayers].
Defined.

Lemma one_image_is_predicted :
  exists preds,
    fst (cell_18 forward0 vgg one_image fresh) = Ok preds /\
    length preds = 1%nat /\
    Forall (fun i => (i < 10)%nat) preds.
Proof.
  destruct (all_predictions_are_class_indices forward0 one_image fresh) as [Hok _].
  destruct Hok as (preds & Hrun & Hlen & Hb).
  - discriminate.
  - repeat constructor.
  - exists preds; rewrite Hrun; auto.
Defined.

Lemma one_pixel_is_not_drawn :
  fst (show_sample forward0 vgg [[[[5]]]] (np.divide [[[[5]]]] 5)
         [<[7%nat := Fin 1]> (replicate 10 (Fin 0))]
         ["airplane"; "automobile"; "bird"; "cat"; "deer";
          "dog"; "frog"; "horse"; "ship"; "truck"]
         4 0 0 fresh)
  = Raise TypeError.
Proof.
  rewrite (one_pixel_sample_is_not_drawn forward0 vgg [[[[5]]]] (np.divide [[[[5]]]] 5)
             [<[7%nat := Fin 1]> (replicate 10 (Fin 0))]
             ["airplane"; "automobile"; "bird"; "cat"; "deer";
              "dog"; "frog"; "horse"; "ship"; "truck"]
             4 0 0 fresh [5] [[[Fin (5 # 5)]]] eq_refl eq_refl eq_refl).
  reflexivity.
Defined.

Lemma short_test_evaluated_on_its_validation_data :
  exists a x y,
    a ∈ fit_calls (w_log (snd (notebook short_test forward0 measure0 curve0 fresh))) /\
    (x, y) ∈ evaluate_calls
               (w_log (snd (notebook short_test forward0 measure0 curve0 fresh))) /\
    keras.fit_validation_data a = (x, y).
Proof.
  exists (vgg_fit (np.divide [flat_image 7] 7) (np.divide [flat_image 5] 7)
            [<[2%nat := Fin 1]> (replicate 10 (Fin 0))]
            [<[3%nat := Fin 1]> (replicate 10 (Fin 0))]),
         (np.divide [flat_image 5] 7), [<[3%nat := Fin 1]> (replicate 10 (Fin 0))].
  assert (Hfit : vgg_fit (np.divide [flat_image 7] 7) (np.divide [flat_image 5] 7)
                   [<[2%nat := Fin 1]> (replicate 10 (Fin 0))]
                   [<[3%nat := Fin 1]> (replicate 10 (Fin 0))]
                 ∈ fit_calls (w_log (snd (notebook short_test forward0 measure0
                                            curve0 fresh))))
    by (vm_compute; left).
  assert (Heval : (np.divide [flat_image 5] 7,
                   [<[3%nat := Fin 1]> (replicate 10 (Fin 0))])
                  ∈ evaluate_calls (w_log (snd (notebook short_test forward0 measure0
                                                  curve0 fresh))))
    by (vm_compute; left).
  split; [exact Hfit|]; split; [exact Heval|].
  exact (evaluated_on_the_validation_data short_test forward0 measure0 curve0
           _ _ _ Hfit Heval).
Defined.

Lemma cifar_shape_has_eight_pixels :
  fst (cell_07 [32; 32; 3] 10 fresh) = Ok vgg /\
  keras.sum_params keras.trainable_params [32; 32; 3] vgg_layers = Ok 6332650 /\
  fst (cell_07 [32; 4; 3] 10 fresh) = Raise ValueError.
Proof.
  destruct (vgg_needs_eight_pixels 32 32 3 10 fresh) as [Hbig _];
    [reflexivity | reflexivity |].
  destruct Hbig as (Hmodel & _ & Hcount); [split; discriminate|].
  destruct (vgg_needs_eight_pixels 32 4 3 10 fresh) as [_ Hsmall];
    [reflexivity | reflexivity |].
  split; [exact Hmodel|]; split; [exact Hcount|].
  apply Hsmall; right; reflexivity.
Defined.

Lemma loss_curves_of_fourteen_epochs :
  exists history w',
    fit curve0 vgg (vgg_fit one_image one_image one_target one_target) compiled_world
    = (Ok history, w') /\
    getkey history "loss" = Ok (replicate 14 (Fin 1)) /\
    fst (cell_16 14 history fresh) = Ok tt /\
    fst (cell_16 10 history fresh) = Raise ValueError.
Proof.
  destruct (loss_curves_fit_the_history curve0 vgg
              (vgg_fit one_image one_image one_target one_target)
              compiled_world vgg_compile eq_refl) as [Hfit _].
  destruct Hfit as (history & w' & Hfit & Hloss & _ & Hplot & Hbad);
    [reflexivity | vm_compute; reflexivity | vm_compute; reflexivity
    | exact one_image_finite | exact one_image_finite |].
  exists history, w'; split; [exact Hfit|]; split; [exact Hloss|].
  split; [exact (f_equal fst (Hplot fresh))|].
  apply (Hbad 10 fresh); discriminate.
Defined.

Lemma five_score_lines :
  fst (cell_14 measure0 vgg one_image one_target compiled_world)
  = Ok (keras.Scores [Fin 0; Fin 0; Fin 0; Fin 0; Fin 0]).
Proof.
  destruct (score_lines_need_four_metrics measure0 vgg one_image one_target
              compiled_world vgg_compile eq_refl)
    as (lines & _ & _ & Hrun & _).
  - vm_compute; reflexivity.
  - exact one_image_finite.
  - exact Hrun.
Defined.
